(** * Deluthium Hummingbot connector: a shallow embedding and its properties

    The development follows the Python package
    [deluthium_hummingbot/connector]:
    - [deluthium_constants.py]  (chain tables, error-code tables),
    - [deluthium_utils.py]      (wei helpers, symbol codec, chain validation),
    - [deluthium_order_book.py] (message construction),
    - [deluthium_api_order_book_data_source.py] (synthetic book, polling loop),
    - [deluthium_exchange.py]   (pair cache, order placement, error mapping).

    Python values are modelled by an inductive type of JSON-like values,
    [str] by its UTF-8 encoding, [float] by the binary64 numbers it
    denotes, [decimal.Decimal] by a coefficient and a decimal exponent,
    exceptions by an error monad, and awaited network calls by an explicit
    answer of the environment. *)

From Stdlib Require Import ZArith Lia List String Ascii Bool.
From stdpp Require Import base gmap strings pretty.
Import ListNotations.
Open Scope string_scope.
Open Scope Z_scope.

(* ===================================================================== *)
(** ** Exceptions and the error monad *)
(* ===================================================================== *)

(** The text of an exception.  A text the connector or the interpreter
    writes out is kept as it is.  The text [int()] and [float()] compose
    when they reject a string holds [repr] of that string, which depends on
    the interpreter's table of printable characters: such a text is kept as
    the name of the builtin and the rejected string. *)
Inductive text : Type :=
  | Text (s : string)
  | InvalidLiteral (builtin literal : string).

Coercion Text : string >-> text.

(** The exception classes the connector can meet.  [CancelledError] derives
    from [BaseException] but not from [Exception] (Python 3.8 and later), so
    an [except Exception] clause lets it through. *)
Inductive exn : Type :=
  | RuntimeError (msg : string)
  | ValueError (msg : text)
  | TypeError (msg : string)
  | AttributeError (msg : string)
  | OverflowError (msg : string)
  | InvalidOperation
  | ClientError (msg : string)
  | QueueFull
  | CancelledError.

Definition is_Exception (e : exn) : bool :=
  match e with
  | CancelledError => false
  | _ => true
  end.

(** [aiohttp.ClientError] and its subclasses. *)
Definition is_ClientError (e : exn) : bool :=
  match e with
  | ClientError _ => true
  | _ => false
  end.

Inductive result (A : Type) : Type :=
  | Ok (a : A)
  | Raise (e : exn).
Arguments Ok {A} a.
Arguments Raise {A} e.

Definition bind {A B : Type} (r : result A) (k : A -> result B) : result B :=
  match r with
  | Ok a => k a
  | Raise e => Raise e
  end.

#[global] Instance result_ret : MRet result := fun A a => Ok a.
#[global] Instance result_bind : MBind result := fun A B k r => bind r k.

(* ===================================================================== *)
(** ** Strings *)
(* ===================================================================== *)

(** [s.replace(old, new)] for one-character [old] and [new], the only way
    the connector calls it. *)
Fixpoint str_replace (old new : ascii) (s : string) : string :=
  match s with
  | EmptyString => EmptyString
  | String c rest =>
      String (if Ascii.eqb c old then new else c) (str_replace old new rest)
  end.

(** [sep in s] for a one-character [sep]. *)
Fixpoint str_contains (sep : ascii) (s : string) : bool :=
  match s with
  | EmptyString => false
  | String c rest => Ascii.eqb c sep || str_contains sep rest
  end.

(** [s.split(sep)] for a one-character [sep]: the pieces between the
    occurrences of [sep], one more piece than occurrences. *)
Fixpoint str_split (sep : ascii) (s : string) : list string :=
  match s with
  | EmptyString => [EmptyString]
  | String c rest =>
      if Ascii.eqb c sep then EmptyString :: str_split sep rest
      else match str_split sep rest with
           | [] => [String c EmptyString]
           | p :: ps => String c p :: ps
           end
  end.

(** [a, b = xs]: tuple unpacking into exactly two names. *)
Definition unpack2 {A : Type} (xs : list A) : result (A * A) :=
  match xs with
  | [a; b] => Ok (a, b)
  | [] | [_] =>
      Raise (ValueError ("not enough values to unpack (expected 2, got "
                         +:+ pretty (length xs) +:+ ")"))
  | _ => Raise (ValueError "too many values to unpack (expected 2)")
  end.

(** Dictionaries written as literals keep their insertion order; they are
    association lists read from the front. *)
Fixpoint assoc {K V : Type} `{EqDecision K} (k : K) (d : list (K * V))
  : option V :=
  match d with
  | [] => None
  | (k', v) :: rest => if decide (k = k') then Some v else assoc k rest
  end.

Definition dict_keys {K V : Type} (d : list (K * V)) : list K := map fst d.

(** The interpreter converts between [int] and [str] up to
    [sys.get_int_max_str_digits()] decimal digits, 4300 unless it is
    configured otherwise, and raises [ValueError] beyond. *)
Definition int_max_str_digits : Z := 4300.

(** [str(n)] for an [int], also as an f-string formats it. *)
Definition str_of_int (n : Z) : result string :=
  if Z.abs n <? 10 ^ int_max_str_digits then Ok (pretty n)
  else Raise (ValueError
                ("Exceeds the limit (4300 digits) for integer string "
                 +:+ "conversion; use sys.set_int_max_str_digits() to "
                 +:+ "increase the limit")).

(** [str(xs)] for a list of small [int]s: ["[56, 8453, 1]"]. *)
Fixpoint join_ints (xs : list Z) : string :=
  match xs with
  | [] => ""
  | [x] => pretty x
  | x :: rest => pretty x +:+ ", " +:+ join_ints rest
  end.

Definition str_of_int_list (xs : list Z) : string :=
  "[" +:+ join_ints xs +:+ "]".

(* ===================================================================== *)
(** ** Binary64 floats *)
(* ===================================================================== *)

(** A Python [float] is an IEEE 754 binary64 number.  A finite one is
    [m * 2^e], kept in the form the format stores: [e = -1074] with
    [|m| < 2^52] (zero and the subnormals) or [-1074 <= e <= 971] with
    [2^52 <= |m| < 2^53].  The sign of zero is not kept: Python's [==]
    does not see it. *)
Inductive pyfloat : Type :=
  | Fnan
  | Finf (neg : bool)
  | Ffin (m e : Z).

#[global] Instance pyfloat_eq_dec : EqDecision pyfloat.
Proof. solve_decision. Defined.

Definition emin : Z := -1074.
Definition emax : Z := 971.


Definition is_finite (f : pyfloat) : bool :=
  match f with Ffin _ _ => true | _ => false end.

(** [floor (log2 (n / d))] for positive [n] and [d]. *)
Definition ilog2_ratio (n d : Z) : Z :=
  let E := Z.log2 n - Z.log2 d in
  if (if 0 <=? E then n <? d * 2 ^ E else n * 2 ^ (- E) <? d)
  then E - 1 else E.

(** The integer nearest to [n / d] ([d > 0]), ties to the even one. *)
Definition div_half_even (n d : Z) : Z :=
  let q := n / d in
  let r := n mod d in
  if 2 * r <? d then q
  else if d <? 2 * r then q + 1
  else if Z.even q then q else q + 1.

(** Rounding of the non-negative rational [n / d] to binary64, round to
    nearest, ties to even; a result too large is an infinity.  The number is
    first counted in units of [2^-1074], the spacing of the subnormals: it
    is then [n' / d], the spacing of the floats around it is [2^s] units,
    and the result is the multiple of [2^s] nearest to it. *)
Definition round64_pos (n d : Z) : pyfloat :=
  let n' := n * 2 ^ 1074 in
  let s := Z.max 0 (Z.log2 (n' / d) - 52) in
  let q := div_half_even n' (d * 2 ^ s) in
  let '(q, s) := if q =? 2 ^ 53 then (2 ^ 52, s + 1) else (q, s) in
  if emax - emin <? s then Finf false else Ffin q (s + emin).

Definition fneg (f : pyfloat) : pyfloat :=
  match f with
  | Fnan => Fnan
  | Finf s => Finf (negb s)
  | Ffin m e => Ffin (- m) e
  end.

(** Rounding of the rational [n / d], [d > 0]. *)
Definition round64 (n d : Z) : pyfloat :=
  if n <? 0 then fneg (round64_pos (- n) d) else round64_pos n d.

(** Comparison [x <= y] and [x < y] of floats; every comparison with a
    NaN is false. *)
Definition fcompare (x y : pyfloat) : option comparison :=
  match x, y with
  | Fnan, _ | _, Fnan => None
  | Finf true, Finf true | Finf false, Finf false => Some Eq
  | Finf true, _ | _, Finf false => Some Lt
  | Finf false, _ | _, Finf true => Some Gt
  | Ffin m1 e1, Ffin m2 e2 =>
      let e := Z.min e1 e2 in
      Some (m1 * 2 ^ (e1 - e) ?= m2 * 2 ^ (e2 - e))
  end.


Definition fle (x y : pyfloat) : bool :=
  match fcompare x y with Some Lt | Some Eq => true | _ => false end.

Definition feq (x y : pyfloat) : bool :=
  match fcompare x y with Some Eq => true | _ => false end.

(** [float(n)] for an [int]; Python refuses an [int] too large. *)
Definition float_of_int (n : Z) : result pyfloat :=
  match round64 n 1 with
  | Finf _ => Raise (OverflowError "int too large to convert to float")
  | f => Ok f
  end.

(** [int(x)] for a [float]: truncation towards zero. *)
Definition int_of_float (f : pyfloat) : result Z :=
  match f with
  | Fnan => Raise (ValueError "cannot convert float NaN to integer")
  | Finf _ => Raise (OverflowError "cannot convert float infinity to integer")
  | Ffin m e => Ok (if 0 <=? e then m * 2 ^ e else Z.quot m (2 ^ (- e)))
  end.

(* ===================================================================== *)
(** ** Decimal numbers *)
(* ===================================================================== *)

(** A [decimal.Decimal]: a NaN, an infinity, or [c * 10^e].  The model
    keeps the value: trailing zeros of the coefficient and the sign of zero
    are not tracked, and the arithmetic below is exact.  (The default
    context rounds to 28 significant digits; the operands of the connector
    come from the [repr] of a float, at most 17 digits, scaled by a
    three-digit ratio, so no operation reaches that limit.) *)
Inductive Decimal : Type :=
  | Dnan
  | Dinf (neg : bool)
  | Dfin (c e : Z).

(** [Decimal(n)] for an [int]. *)
Definition Decimal_of_int (n : Z) : Decimal := Dfin n 0.

Definition dsign_neg (c : Z) : bool := c <? 0.

(** [x * y]; infinity times zero signals [InvalidOperation]. *)
Definition dmul (x y : Decimal) : result Decimal :=
  match x, y with
  | Dnan, _ | _, Dnan => Ok Dnan
  | Dinf s1, Dinf s2 => Ok (Dinf (xorb s1 s2))
  | Dinf s, Dfin c _ | Dfin c _, Dinf s =>
      if c =? 0 then Raise InvalidOperation
      else Ok (Dinf (xorb s (dsign_neg c)))
  | Dfin c1 e1, Dfin c2 e2 => Ok (Dfin (c1 * c2) (e1 + e2))
  end.

(** [x + y]; the sum of opposite infinities signals [InvalidOperation]. *)
Definition dadd (x y : Decimal) : result Decimal :=
  match x, y with
  | Dnan, _ | _, Dnan => Ok Dnan
  | Dinf s1, Dinf s2 =>
      if Bool.eqb s1 s2 then Ok (Dinf s1) else Raise InvalidOperation
  | Dinf s, Dfin _ _ | Dfin _ _, Dinf s => Ok (Dinf s)
  | Dfin c1 e1, Dfin c2 e2 =>
      let e := Z.min e1 e2 in
      Ok (Dfin (c1 * 10 ^ (e1 - e) + c2 * 10 ^ (e2 - e)) e)
  end.

Definition dneg (x : Decimal) : Decimal :=
  match x with
  | Dnan => Dnan
  | Dinf s => Dinf (negb s)
  | Dfin c e => Dfin (- c) e
  end.

(** [x - y]. *)
Definition dsub (x y : Decimal) : result Decimal := dadd x (dneg y).

(** [x / 2]: halving is exact, with one more digit when the coefficient is
    odd. *)
Definition ddiv2 (x : Decimal) : Decimal :=
  match x with
  | Dnan => Dnan
  | Dinf s => Dinf s
  | Dfin c e => if Z.even c then Dfin (c / 2) e else Dfin (c * 5) (e - 1)
  end.



(** [float(d)]: the binary64 number nearest to the decimal; a value too
    large becomes an infinity, as [float("1e999")] does. *)
Definition float_of_Decimal (d : Decimal) : pyfloat :=
  match d with
  | Dnan => Fnan
  | Dinf s => Finf s
  | Dfin c e => round64 (c * 10 ^ Z.max e 0) (10 ^ Z.max (- e) 0)
  end.

(** *** The shortest decimal that reads back as a float: [repr] *)

(** [floor (log10 (n / d))] for positive [n] and [d], from the binary
    logarithm and a correction by at most one. *)
Definition pow10_le (k n d : Z) : bool :=
  if 0 <=? k then 10 ^ k * d <=? n else d <=? n * 10 ^ (- k).

Definition ilog10_ratio (n d : Z) : Z :=
  let k0 := (ilog2_ratio n d * 30103) / 100000 in
  if pow10_le (k0 + 1) n d then k0 + 1
  else if pow10_le k0 n d then k0
  else k0 - 1.

(** The candidate with [p] significant digits, when one of the two
    [p]-digit neighbours of [n / d] reads back as [x]; of two that do, the
    nearer one, the even one on a tie. *)
Definition repr_candidate (x : pyfloat) (n d k : Z) (p : Z)
  : option Decimal :=
  let t := k - p + 1 in
  let '(nn, dd) := if 0 <=? t then (n, d * 10 ^ t) else (n * 10 ^ (- t), d) in
  let lo := nn / dd in
  let r := nn mod dd in
  let ok c := bool_decide (float_of_Decimal (Dfin c t) = x) in
  match ok lo, ok (lo + 1) with
  | true, true =>
      if 2 * r <? dd then Some (Dfin lo t)
      else if dd <? 2 * r then Some (Dfin (lo + 1) t)
      else if Z.even lo then Some (Dfin lo t) else Some (Dfin (lo + 1) t)
  | true, false => Some (Dfin lo t)
  | false, true => Some (Dfin (lo + 1) t)
  | false, false => None
  end.

Fixpoint repr_search (x : pyfloat) (n d k : Z) (p : Z) (fuel : nat)
  (exact : Decimal) : Decimal :=
  match fuel with
  | O => exact
  | S fuel' =>
      match repr_candidate x n d k p with
      | Some c => c
      | None => repr_search x n d k (p + 1) fuel' exact
      end
  end.

(** The exact decimal expansion of [m * 2^e]. *)
Definition exact_decimal (m e : Z) : Decimal :=
  if 0 <=? e then Dfin (m * 2 ^ e) 0 else Dfin (m * 5 ^ (- e)) e.

(** [repr] of a positive finite float: the fewest digits, from 1 to 17,
    that read back as the float.  Seventeen digits always suffice for a
    binary64 number; the exact expansion closes the search. *)
Definition repr_pos (m e : Z) : Decimal :=
  let '(n, d) := if 0 <=? e then (m * 2 ^ e, 1) else (m, 2 ^ (- e)) in
  repr_search (Ffin m e) n d (ilog10_ratio n d) 1 17 (exact_decimal m e).

(** [Decimal(str(x))] for a float [x]. *)
Definition Decimal_of_float_str (x : pyfloat) : Decimal :=
  match x with
  | Fnan => Dnan
  | Finf s => Dinf s
  | Ffin m e =>
      if m =? 0 then Dfin 0 0
      else if m <? 0 then dneg (repr_pos (- m) e)
      else repr_pos m e
  end.

(* ===================================================================== *)
(** ** Reading and writing numbers *)
(* ===================================================================== *)

(** *** Strings as the interpreter reads them

    A Python [str] is a sequence of code points; a [string] here is its
    UTF-8 encoding, which is what a string literal of this file holds.
    [code_points] reads the code points back.  A byte that starts no
    well-formed sequence is read as [-1], the code point of no character. *)
Definition byte (c : ascii) : Z := Z.of_nat (nat_of_ascii c).

Definition continuation (b : Z) : bool := (128 <=? b) && (b <? 192).

Fixpoint code_points (s : list ascii) : list Z :=
  match s with
  | [] => []
  | c0 :: s1 =>
      let b0 := byte c0 in
      if b0 <? 128 then b0 :: code_points s1
      else
        match s1 with
        | c1 :: s2 =>
            let b1 := byte c1 in
            if (194 <=? b0) && (b0 <? 224) && continuation b1
            then ((b0 - 192) * 64 + (b1 - 128)) :: code_points s2
            else
              match s2 with
              | c2 :: s3 =>
                  let b2 := byte c2 in
                  let cp3 :=
                    (b0 - 224) * 4096 + (b1 - 128) * 64 + (b2 - 128) in
                  if (224 <=? b0) && (b0 <? 240) && continuation b1
                     && continuation b2 && (2048 <=? cp3)
                  then cp3 :: code_points s3
                  else
                    match s3 with
                    | c3 :: s4 =>
                        let b3 := byte c3 in
                        let cp4 :=
                          (b0 - 240) * 262144 + (b1 - 128) * 4096
                          + (b2 - 128) * 64 + (b3 - 128) in
                        if (240 <=? b0) && (b0 <? 245) && continuation b1
                           && continuation b2 && continuation b3
                           && (65536 <=? cp4) && (cp4 <? 1114112)
                        then cp4 :: code_points s4
                        else -1 :: code_points s1
                    | [] => -1 :: code_points s1
                    end
              | [] => -1 :: code_points s1
              end
        | [] => [-1]
        end
  end.

(** The zero of every run of ten decimal digits of Unicode 14.0, the
    version of CPython 3.11: the characters whose [unicodedata.decimal] is
    defined are those from a zero to nine places after it. *)
Definition DECIMAL_ZEROS : list Z :=
  [48; 1632; 1776; 1984; 2406; 2534; 2662; 2790; 2918; 3046; 3174; 3302;
   3430; 3558; 3664; 3792; 3872; 4160; 4240; 6112; 6160; 6470; 6608; 6784;
   6800; 6992; 7088; 7232; 7248; 42528; 43216; 43264; 43472; 43504; 43600;
   44016; 65296; 66720; 68912; 69734; 69872; 69942; 70096; 70384; 70736;
   70864; 71248; 71360; 71472; 71904; 72016; 72784; 73040; 73120; 92768;
   92864; 93008; 120782; 120792; 120802; 120812; 120822; 123200; 123632;
   125264; 130032].

(** [unicodedata.decimal] of a code point. *)
Definition decimal_value (cp : Z) : option Z :=
  (fun zero => cp - zero)
    <$> List.find (fun zero => (zero <=? cp) && (cp <? zero + 10))
          DECIMAL_ZEROS.

(** The white space of Unicode beyond ASCII: NEL, the no-break space, the
    Ogham space mark, the spaces U+2000 to U+200A, the line and paragraph
    separators, the narrow no-break space, the mathematical space and the
    ideographic space. *)
Definition unicode_space (cp : Z) : bool :=
  (cp =? 133) || (cp =? 160) || (cp =? 5760)
  || ((8192 <=? cp) && (cp <=? 8202))
  || (cp =? 8232) || (cp =? 8233) || (cp =? 8239) || (cp =? 8287)
  || (cp =? 12288).

(** What [int()] and [float()] do to a [str] before they read it: a code
    point below 127 stays, white space beyond becomes a blank, a decimal
    digit beyond becomes its ASCII digit, and anything else a character no
    number holds. *)
Definition ascii_of_code_point (cp : Z) : ascii :=
  if (0 <=? cp) && (cp <? 127) then ascii_of_nat (Z.to_nat cp)
  else if unicode_space cp then " "%char
  else match decimal_value cp with
       | Some d => ascii_of_nat (Z.to_nat (48 + d))
       | None => "?"%char
       end.

Definition transform_decimal_and_space (s : string) : list ascii :=
  map ascii_of_code_point (code_points (list_ascii_of_string s)).

Definition digit_val (c : ascii) : option Z :=
  let n := byte c in
  if (48 <=? n) && (n <=? 57) then Some (n - 48) else None.

(** The blanks [int()] and [float()] skip around a number, those of C's
    [isspace]: tab to carriage return, and the space. *)
Definition is_space (c : ascii) : bool :=
  let n := byte c in
  ((9 <=? n) && (n <=? 13)) || (n =? 32).

Fixpoint lstrip (s : list ascii) : list ascii :=
  match s with
  | c :: s' => if is_space c then lstrip s' else s
  | [] => []
  end.

Definition strip (s : list ascii) : list ascii :=
  rev (lstrip (rev (lstrip s))).

(** The rest of a digit part after its first digit: [(["_"] digit)*].
    Returns the number read so far, the count of digits and what is left. *)
Fixpoint digitpart_rest (acc cnt : Z) (s : list ascii)
  : Z * Z * list ascii :=
  match s with
  | c :: s' =>
      match digit_val c with
      | Some v => digitpart_rest (acc * 10 + v) (cnt + 1) s'
      | None =>
          if Ascii.eqb c "_" then
            match s' with
            | c2 :: s'' =>
                match digit_val c2 with
                | Some v => digitpart_rest (acc * 10 + v) (cnt + 1) s''
                | None => (acc, cnt, s)
                end
            | [] => (acc, cnt, s)
            end
          else (acc, cnt, s)
      end
  | [] => (acc, cnt, s)
  end.

(** A digit part continuing the number [acc]: at least one digit. *)
Definition digitpart (acc : Z) (s : list ascii)
  : option (Z * Z * list ascii) :=
  match s with
  | c :: s' =>
      match digit_val c with
      | Some v => Some (digitpart_rest (acc * 10 + v) 1 s')
      | None => None
      end
  | [] => None
  end.

(** An optional sign: [true] for a minus. *)
Definition read_sign (s : list ascii) : bool * list ascii :=
  match s with
  | c :: s' =>
      if Ascii.eqb c "-" then (true, s')
      else if Ascii.eqb c "+" then (false, s')
      else (false, s)
  | [] => (false, s)
  end.

(** [int(s)] for a string, base 10: blanks around, a sign, digits with
    single underscores between them.  The digits are counted as they are
    scanned, leading zeros included, and more than the limit are refused
    before what follows them is looked at; an underscore out of place is
    found first. *)
Definition parse_int (s : string) : result Z :=
  let invalid := Raise (ValueError (InvalidLiteral "int" s)) in
  let '(neg, s1) := read_sign (strip (transform_decimal_and_space s)) in
  match digitpart 0 s1 with
  | Some (n, digits, rest) =>
      let underscore :=
        match rest with c :: _ => Ascii.eqb c "_" | [] => false end in
      if underscore then invalid
      else if int_max_str_digits <? digits then
        Raise (ValueError
                 ("Exceeds the limit (4300 digits) for integer string "
                  +:+ "conversion: value has " +:+ pretty digits
                  +:+ " digits; use sys.set_int_max_str_digits() to "
                  +:+ "increase the limit"))
      else match rest with
           | [] => Ok (if neg then - n else n)
           | _ => invalid
           end
  | None => invalid
  end.

Definition lower (c : ascii) : ascii :=
  let n := nat_of_ascii c in
  if (65 <=? n)%nat && (n <=? 90)%nat then ascii_of_nat (n + 32) else c.

(** The exponent part of a float literal, zero when absent. *)
Definition read_exponent (s : list ascii) : option Z :=
  match s with
  | [] => Some 0
  | c :: s' =>
      if Ascii.eqb (lower c) "e" then
        let '(neg, s1) := read_sign s' in
        match digitpart 0 s1 with
        | Some (n, _, []) => Some (if neg then - n else n)
        | _ => None
        end
      else None
  end.

(** The number of a float literal: [[digitpart] "." digitpart] or
    [digitpart ["."]], then an exponent; as a coefficient and a decimal
    exponent. *)
Definition read_number (s : list ascii) : option (Z * Z) :=
  match digitpart 0 s with
  | Some (n, _, rest) =>
      match rest with
      | c :: rest' =>
          if Ascii.eqb c "." then
            match digitpart n rest' with
            | Some (n', k, rest'') =>
                x ← read_exponent rest''; Some (n', x - k)
            | None => x ← read_exponent rest'; Some (n, x)
            end
          else x ← read_exponent rest; Some (n, x)
      | [] => Some (n, 0)
      end
  | None =>
      match s with
      | c :: rest' =>
          if Ascii.eqb c "." then
            '(n', k, rest'') ← digitpart 0 rest';
            x ← read_exponent rest''; Some (n', x - k)
          else None
      | [] => None
      end
  end.

(** [Decimal]-valued reading of a float literal: sign, then [inf],
    [infinity], [nan] in any case, or a number. *)
Definition parse_decimal (s : string) : option Decimal :=
  let '(neg, s1) := read_sign (strip (transform_decimal_and_space s)) in
  let word := string_of_list_ascii (map lower s1) in
  if bool_decide (word = "inf") || bool_decide (word = "infinity")
  then Some (Dinf neg)
  else if bool_decide (word = "nan") then Some Dnan
  else '(c, e) ← read_number s1; Some (Dfin (if neg then - c else c) e).

(** [float(s)] for a string: the nearest binary64 number. *)
Definition parse_float (s : string) : option pyfloat :=
  float_of_Decimal <$> parse_decimal s.

(** *** [repr] of a float as text *)

Fixpoint str_repeat (c : ascii) (n : nat) : string :=
  match n with
  | O => EmptyString
  | S n' => String c (str_repeat c n')
  end.

(** Removal of the trailing zeros of a positive coefficient. *)
Fixpoint strip_zeros (fuel : nat) (c e : Z) : Z * Z :=
  match fuel with
  | O => (c, e)
  | S fuel' =>
      if (c mod 10 =? 0) && negb (c =? 0) then strip_zeros fuel' (c / 10) (e + 1)
      else (c, e)
  end.

(** The text of [c * 10^e], [c > 0], in the style of [repr]: positional
    when the decimal point falls within [-4 < decpt <= 16], scientific
    otherwise. *)
Definition format_repr (c e : Z) : string :=
  let '(c, e) := strip_zeros (Z.to_nat (Z.log2 c) + 1) c e in
  let digits : string := pretty c in
  let n := Z.of_nat (String.length digits) in
  let decpt := n + e in
  if (decpt <=? -4) || (16 <? decpt) then
    let x := decpt - 1 in
    let xs : string := pretty (Z.abs x) in
    substring 0 1 digits
    +:+ (if n =? 1 then "" else "." +:+ substring 1 (Z.to_nat (n - 1)) digits)
    +:+ "e" +:+ (if x <? 0 then "-" else "+")
    +:+ (if Z.abs x <? 10 then "0" else "") +:+ xs
  else if decpt <=? 0 then
    "0." +:+ str_repeat "0" (Z.to_nat (- decpt)) +:+ digits
  else if decpt <? n then
    substring 0 (Z.to_nat decpt) digits +:+ "."
    +:+ substring (Z.to_nat decpt) (Z.to_nat (n - decpt)) digits
  else digits +:+ str_repeat "0" (Z.to_nat (decpt - n)) +:+ ".0".

(** [str(x)] for a float. *)
Definition str_of_float (x : pyfloat) : string :=
  match x with
  | Fnan => "nan"
  | Finf s => if s then "-inf" else "inf"
  | Ffin m e =>
      if m =? 0 then "0.0"
      else match repr_pos (Z.abs m) e with
           | Dfin c t => (if m <? 0 then "-" else "") +:+ format_repr c t
           | _ => ""
           end
  end.

(* ===================================================================== *)
(** ** Python values *)
(* ===================================================================== *)

Set Warnings "-register-all".

(** The values a decoded JSON body and the connector's dictionaries hold.
    A dictionary with string keys is a finite map: Python compares
    dictionaries without regard to insertion order. *)
Inductive pyval : Type :=
  | VNone
  | VBool (b : bool)
  | VInt (n : Z)
  | VFloat (x : pyfloat)
  | VStr (s : string)
  | VList (xs : list pyval)
  | VDict (items : gmap string pyval).

Abbreviation pydict := (gmap string pyval).

(** Truth value of a value, as [if v:] tests it. *)
Definition truthy (v : pyval) : bool :=
  match v with
  | VNone => false
  | VBool b => b
  | VInt n => negb (n =? 0)
  | VFloat (Ffin m _) => negb (m =? 0)
  | VFloat _ => true
  | VStr s => negb (bool_decide (s = ""))
  | VList xs => match xs with [] => false | _ => true end
  | VDict d => negb (bool_decide (d = ∅))
  end.

Definition type_name (v : pyval) : string :=
  match v with
  | VNone => "NoneType"
  | VBool _ => "bool"
  | VInt _ => "int"
  | VFloat _ => "float"
  | VStr _ => "str"
  | VList _ => "list"
  | VDict _ => "dict"
  end.

(** [d.get(k)]: [None] when the key is missing. *)
Definition dict_get (k : string) (d : pydict) : pyval :=
  default VNone (d !! k).

(** [d.get(k, dflt)]. *)
Definition dict_get_default (k : string) (dflt : pyval) (d : pydict)
  : pyval :=
  default dflt (d !! k).

(** [{**a, **b}]: a new dictionary with the items of [a], overridden and
    extended by those of [b]. *)
Definition dict_merge (a b : pydict) : pydict := b ∪ a.

(** [v.get(k)] on an arbitrary value: only a dictionary has [get]. *)
Definition py_get (v : pyval) (k : string) : result pyval :=
  match v with
  | VDict d => Ok (dict_get k d)
  | _ => Raise (AttributeError
                  ("'" +:+ type_name v +:+ "' object has no attribute 'get'"))
  end.

(** [v.get(k, dflt)] on an arbitrary value. *)
Definition py_get_default (v : pyval) (k : string) (dflt : pyval)
  : result pyval :=
  match v with
  | VDict d => Ok (dict_get_default k dflt d)
  | _ => Raise (AttributeError
                  ("'" +:+ type_name v +:+ "' object has no attribute 'get'"))
  end.

(** [int(v)]. *)
Definition py_int (v : pyval) : result Z :=
  match v with
  | VInt n => Ok n
  | VBool b => Ok (if b then 1 else 0)
  | VFloat x => int_of_float x
  | VStr s => parse_int s
  | _ => Raise (TypeError
                  ("int() argument must be a string, a bytes-like object or "
                   +:+ "a real number, not '" +:+ type_name v +:+ "'"))
  end.

(** [float(v)]. *)
Definition py_float (v : pyval) : result pyfloat :=
  match v with
  | VInt n => float_of_int n
  | VBool b => Ok (if b then Ffin (2 ^ 52) (-52) else Ffin 0 emin)
  | VFloat x => Ok x
  | VStr s =>
      match parse_float s with
      | Some x => Ok x
      | None => Raise (ValueError (InvalidLiteral "float" s))
      end
  | _ => Raise (TypeError
                  ("float() argument must be a string or a real number, not '"
                   +:+ type_name v +:+ "'"))
  end.

(** [str(v)] for the values an f-string of the connector formats: a key
    of the string table, or a code whose integer is a key of the numeric
    table, so that an [int] is short enough to print. *)
Definition py_str (v : pyval) : string :=
  match v with
  | VNone => "None"
  | VBool b => if b then "True" else "False"
  | VInt n => pretty n
  | VFloat x => str_of_float x
  | VStr s => s
  | VList _ | VDict _ => ""
  end.

(** [v in table] for a table with string keys: a list or a dictionary is
    unhashable, a value that is not a string equals no key. *)
Definition in_str_table {V : Type} (v : pyval) (table : list (string * V))
  : result (option V) :=
  match v with
  | VStr s => Ok (assoc s table)
  | VList _ | VDict _ =>
      Raise (TypeError ("unhashable type: '" +:+ type_name v +:+ "'"))
  | _ => Ok None
  end.

(* ===================================================================== *)
(** ** [deluthium_constants.py] *)
(* ===================================================================== *)

Definition SUPPORTED_CHAINS : list (Z * string) :=
  [(56, "BSC"); (8453, "Base"); (1, "Ethereum")].

Definition DEFAULT_CHAIN_ID : Z := 56.

Definition WRAPPED_TOKENS : list (Z * string) :=
  [(56, "0xbb4CdB9CBd36B01bD1cBaEBF2De08d9173bc095c");
   (8453, "0x4200000000000000000000000000000000000006");
   (1, "0xC02aaA39b223FE8D0A0e5C4F27eAD9083C756Cc2")].

Definition NATIVE_TOKEN_ADDRESS : string :=
  "0x0000000000000000000000000000000000000000".

Definition STRING_ERROR_CODES : list (string * string) :=
  [("INVALID_API_KEY", "The API key provided is invalid or expired.");
   ("INSUFFICIENT_LIQUIDITY",
    "Not enough liquidity to fill the requested amount.");
   ("PAIR_NOT_SUPPORTED", "The requested trading pair is not supported.");
   ("QUOTE_EXPIRED", "The firm quote has expired. Request a new one.");
   ("RATE_LIMIT_EXCEEDED", "Too many requests – slow down.");
   ("CHAIN_NOT_SUPPORTED", "The specified chain ID is not supported.");
   ("INVALID_AMOUNT", "The amount provided is invalid (zero or negative).");
   ("INTERNAL_ERROR", "An unexpected server-side error occurred.")].

Definition NUMERIC_ERROR_CODES : list (Z * string) :=
  [(1001, "Invalid API key");
   (1002, "Insufficient liquidity");
   (1003, "Pair not supported");
   (1004, "Quote expired");
   (1005, "Rate limit exceeded");
   (1006, "Chain not supported");
   (1007, "Invalid amount");
   (5000, "Internal server error")].

(* ===================================================================== *)
(** ** [deluthium_utils.py] *)
(* ===================================================================== *)

(** [convert_symbol_to_hummingbot]: [symbol.replace("/", "-")]. *)
Definition convert_symbol_to_hummingbot (symbol : string) : string :=
  str_replace "/" "-" symbol.

(** [convert_symbol_to_deluthium]: [symbol.replace("-", "/")]. *)
Definition convert_symbol_to_deluthium (symbol : string) : string :=
  str_replace "-" "/" symbol.

(** [validate_chain_id]: [chain_id in SUPPORTED_CHAINS]. *)
Definition validate_chain_id (chain_id : Z) : bool :=
  bool_decide (is_Some (assoc chain_id SUPPORTED_CHAINS)).

(** [get_wrapped_token]. *)
Definition get_wrapped_token (chain_id : Z) : result string :=
  match assoc chain_id WRAPPED_TOKENS with
  | None =>
      chain ← str_of_int chain_id;
      Raise (ValueError
               ("Chain ID " +:+ chain +:+ " is not supported. "
                +:+ "Supported chains: "
                +:+ str_of_int_list (dict_keys WRAPPED_TOKENS)))
  | Some addr => Ok addr
  end.

(** [str(d)] for a [Decimal], as [Decimal.__str__] lays it out: plain
    digits when the exponent is at most zero and the number is not too
    small, scientific notation otherwise. *)
Definition str_of_Decimal (d : Decimal) : string :=
  match d with
  | Dnan => "NaN"
  | Dinf s => if s then "-Infinity" else "Infinity"
  | Dfin c e =>
      let digits : string := pretty (Z.abs c) in
      let n := Z.of_nat (String.length digits) in
      let leftdigits := e + n in
      let dotplace :=
        if (e <=? 0) && (-6 <? leftdigits) then leftdigits else 1 in
      let body :=
        if dotplace <=? 0 then
          "0." +:+ str_repeat "0" (Z.to_nat (- dotplace)) +:+ digits
        else if n <=? dotplace then
          digits +:+ str_repeat "0" (Z.to_nat (dotplace - n))
        else
          substring 0 (Z.to_nat dotplace) digits +:+ "."
          +:+ substring (Z.to_nat dotplace) (Z.to_nat (n - dotplace)) digits in
      let x := leftdigits - dotplace in
      let exp : string :=
        if x =? 0 then ""
        else "E" +:+ (if x <? 0 then "-" else "+") +:+ pretty (Z.abs x) in
      (if c <? 0 then "-" else "") +:+ body +:+ exp
  end.

(* ===================================================================== *)
(** ** [deluthium_order_book.py] *)
(* ===================================================================== *)

Inductive OrderBookMessageType : Type := SNAPSHOT | DIFF | TRADE.

(** What a message constructor returns: Hummingbot's [OrderBookMessage]
    when the framework is importable, the bare content dictionary
    otherwise. *)
Inductive message (C : Type) : Type :=
  | OrderBookMessage (message_type : OrderBookMessageType) (content : C)
      (timestamp : pyfloat)
  | PlainContent (content : C).
Arguments OrderBookMessage {C} _ _ _.
Arguments PlainContent {C} _.

Definition message_content {C : Type} (m : message C) : C :=
  match m with
  | OrderBookMessage _ c _ => c
  | PlainContent c => c
  end.

(** [if metadata:] holds for a dictionary that is given and not empty. *)
Definition metadata_given (metadata : option pydict) : bool :=
  match metadata with
  | None => false
  | Some md => negb (bool_decide (md = ∅))
  end.

(** The dictionary the local name [msg] is bound to after
    [if metadata: msg = {**msg, **metadata}]. *)
Definition merged_msg (msg : pydict) (metadata : option pydict) : pydict :=
  match metadata with
  | Some md => if metadata_given metadata then dict_merge msg md else msg
  | None => msg
  end.

(** The [content] dictionary of a snapshot or a diff message.  The default
    [int(timestamp)] is an argument of [get]: it is computed, and may
    raise, whether or not the key is present. *)
Definition book_content (msg : pydict) (timestamp : pyfloat)
  : result pydict :=
  let trading_pair := dict_get_default "trading_pair" (VStr "") msg in
  ts ← int_of_float timestamp;
  let update_id := dict_get_default "update_id" (VInt ts) msg in
  let bids := dict_get_default "bids" (VList []) msg in
  let asks := dict_get_default "asks" (VList []) msg in
  mret ({[ "trading_pair" := trading_pair; "update_id" := update_id;
           "bids" := bids; "asks" := asks ]} : pydict).

(** The [content] dictionary of a trade message. *)
Definition trade_content (msg : pydict) (timestamp : pyfloat)
  : result pydict :=
  let trading_pair := dict_get_default "trading_pair" (VStr "") msg in
  ts ← int_of_float timestamp;
  let trade_id := dict_get_default "trade_id" (VInt ts) msg in
  ts' ← int_of_float timestamp;
  let update_id := dict_get_default "update_id" (VInt ts') msg in
  let price := dict_get_default "price" (VStr "0") msg in
  let amount := dict_get_default "amount" (VStr "0") msg in
  let trade_type := dict_get_default "trade_type" (VStr "buy") msg in
  mret ({[ "trading_pair" := trading_pair; "trade_id" := trade_id;
           "update_id" := update_id; "price" := price;
           "amount" := amount; "trade_type" := trade_type ]} : pydict).

Definition wrap_message {C : Type} (hb_available : bool)
  (ty : OrderBookMessageType) (content : C) (timestamp : pyfloat)
  : message C :=
  if hb_available then OrderBookMessage ty content timestamp
  else PlainContent content.

(** References to dictionary objects, and the store that holds them. *)
Abbreviation loc := positive.
Abbreviation store := (gmap loc pydict).

Section OrderBook.
(** [_HB_AVAILABLE]: whether the Hummingbot framework was importable. *)
Variable HB_AVAILABLE : bool.

(** [DeluthiumOrderBook.snapshot_message_from_exchange], on values. *)
Definition snapshot_message_from_exchange (msg : pydict)
  (timestamp : pyfloat) (metadata : option pydict)
  : result (message pydict) :=
  content ← book_content (merged_msg msg metadata) timestamp;
  mret (wrap_message HB_AVAILABLE SNAPSHOT content timestamp).

(** [DeluthiumOrderBook.diff_message_from_exchange]. *)
Definition diff_message_from_exchange (msg : pydict)
  (timestamp : pyfloat) (metadata : option pydict)
  : result (message pydict) :=
  content ← book_content (merged_msg msg metadata) timestamp;
  mret (wrap_message HB_AVAILABLE DIFF content timestamp).

(** [DeluthiumOrderBook.trade_message_from_exchange]. *)
Definition trade_message_from_exchange (msg : pydict)
  (timestamp : pyfloat) (metadata : option pydict)
  : result (message pydict) :=
  content ← trade_content (merged_msg msg metadata) timestamp;
  mret (wrap_message HB_AVAILABLE TRADE content timestamp).

(** *** The same call on a store of dictionary objects

    The caller hands over references; the store shows which objects the
    call creates and that it writes to none that existed. *)

Definition alloc (h : store) (d : pydict) : store * loc :=
  let l := fresh (dom h) in (<[l := d]> h, l).

Definition deref (h : store) (l : loc) : pydict := default ∅ (h !! l).

(** [snapshot_message_from_exchange(msg, timestamp, metadata)] with
    [msg] and [metadata] passed by reference.  The merge binds the local
    name [msg] to a new object; [content] is another new object. *)
Definition snapshot_message_from_exchange_ref (h : store) (msg : loc)
  (timestamp : pyfloat) (metadata : option loc)
  : store * result (message loc) :=
  let '(h1, msg1) :=
    if metadata_given (deref h <$> metadata)
    then alloc h (dict_merge (deref h msg)
                    (default ∅ (deref h <$> metadata)))
    else (h, msg) in
  match book_content (deref h1 msg1) timestamp with
  | Raise e => (h1, Raise e)
  | Ok content =>
      let '(h2, c) := alloc h1 content in
      (h2, Ok (wrap_message HB_AVAILABLE SNAPSHOT c timestamp))
  end.
End OrderBook.

(* ===================================================================== *)
(** ** The network *)
(* ===================================================================== *)

Definition BASE_URL : string := "https://rfq-api.deluthium.ai".
Definition LISTING_PAIRS_PATH : string := "/v1/listing/pairs".
Definition QUOTE_INDICATIVE_PATH : string := "/v1/quote/indicative".
Definition QUOTE_FIRM_PATH : string := "/v1/quote/firm".

Inductive http_method : Type := GET | POST.

Record request : Type := {
  req_method : http_method;
  req_url : string;
  req_headers : pydict;
  req_params : option pydict;
  req_json : option pydict;
}.

(** What awaiting a request yields: the call itself raises (no
    connection, a timeout, the task is cancelled), or a response arrives
    with a status and a body that [resp.json()] decodes or fails to. *)
Inductive answer : Type :=
  | Failed (e : exn)
  | Responded (status : Z) (body : result pyval).

(** [resp.raise_for_status()]. *)
Definition raise_for_status (status : Z) : result unit :=
  if 400 <=? status
  then Raise (ClientError ("response status " +:+ pretty status))
  else Ok ().

(** [try: body except Exception: handler]: the handler takes over every
    exception that derives from [Exception]. *)
Definition except_Exception {A : Type} (body : result A) (handler : A)
  : result A :=
  match body with
  | Ok a => Ok a
  | Raise e => if is_Exception e then Ok handler else Raise e
  end.

Definition auth_headers (api_key : string) : pydict :=
  {[ "Authorization" := VStr ("Bearer " +:+ api_key);
     "Content-Type" := VStr "application/json" ]}.

(** Iteration over a value, as a [for] clause does it. *)
Definition py_iter (v : pyval) : result (list pyval) :=
  match v with
  | VList xs => Ok xs
  | VDict d => Ok (VStr <$> (map_to_list d).*1)
  | VStr s => Ok ((fun c => VStr (String c EmptyString))
                    <$> list_ascii_of_string s)
  | _ => Raise (TypeError ("'" +:+ type_name v +:+ "' object is not iterable"))
  end.

(** [[f(x) for x in xs]] with an [f] that may raise. *)
Fixpoint mapM {A B : Type} (f : A -> result B) (xs : list A)
  : result (list B) :=
  match xs with
  | [] => Ok []
  | x :: rest => y ← f x; ys ← mapM f rest; mret (y :: ys)
  end.

(* ===================================================================== *)
(** ** [deluthium_api_order_book_data_source.py] *)
(* ===================================================================== *)

(** [SYNTHETIC_SPREAD_RATIO = Decimal("0.001")]. *)
Definition SYNTHETIC_SPREAD_RATIO : Decimal := Dfin 1 (-3).

(** The float literals [1.0] and [2.0]. *)
Definition f1_0 : pyfloat := Ffin (2 ^ 52) (-52).
Definition f2_0 : pyfloat := Ffin (2 ^ 52) (-51).

Definition level (price size : pyfloat) : pyval :=
  VList [VFloat price; VFloat size].

(** The part of [_request_order_book_snapshot] that follows the awaited
    price: the empty book for no price, two levels a side otherwise. *)
Definition build_synthetic_book (trading_pair : string)
  (mid : option pyfloat) : result pydict :=
  match mid with
  | None =>
      mret ({[ "bids" := VList []; "asks" := VList [];
               "trading_pair" := VStr trading_pair ]} : pydict)
  | Some mid =>
      let mid_d := Decimal_of_float_str mid in
      scaled ← dmul mid_d SYNTHETIC_SPREAD_RATIO;
      let half_spread := ddiv2 scaled in
      bid ← dsub mid_d half_spread;
      let best_bid := float_of_Decimal bid in
      ask ← dadd mid_d half_spread;
      let best_ask := float_of_Decimal ask in
      twice ← dmul half_spread (Decimal_of_int 2);
      bid2 ← dsub mid_d twice;
      twice' ← dmul half_spread (Decimal_of_int 2);
      ask2 ← dadd mid_d twice';
      mret ({[ "trading_pair" := VStr trading_pair;
               "bids" := VList [level best_bid f1_0;
                                level (float_of_Decimal bid2) f2_0];
               "asks" := VList [level best_ask f1_0;
                                level (float_of_Decimal ask2) f2_0] ]}
            : pydict)
  end.

Record DataSource : Type := {
  ds_trading_pairs : list string;
  ds_api_key : string;
  ds_chain_id : Z;
}.

Section DataSource.
Variable self : DataSource.

(** [base, quote = trading_pair.split("-") if "-" in trading_pair
    else trading_pair.split("/")]. *)
Definition split_pair (trading_pair : string) : result (string * string) :=
  unpack2 (if str_contains "-" trading_pair
           then str_split "-" trading_pair
           else str_split "/" trading_pair).

Definition indicative_request (base quote : string) : request :=
  {| req_method := GET;
     req_url := BASE_URL +:+ QUOTE_INDICATIVE_PATH;
     req_headers := auth_headers (ds_api_key self);
     req_params := Some ({[ "baseToken" := VStr base;
                            "quoteToken" := VStr quote;
                            "chainId" := VInt (ds_chain_id self) ]}
                         : pydict);
     req_json := None |}.

(** The body of the [try] of [_get_indicative_price]. *)
Definition read_price (a : answer) : result (option pyfloat) :=
  match a with
  | Failed e => Raise e
  | Responded status body =>
      _ ← raise_for_status status;
      data ← body;
      price ← py_get data "price";
      match price with
      | VNone => mret None
      | _ => x ← py_float price; mret (Some x)
      end
  end.

(** [_get_indicative_price]; [net] answers the request. *)
Definition get_indicative_price (net : request -> answer)
  (trading_pair : string) : result (option pyfloat) :=
  '(base, quote) ← split_pair trading_pair;
  except_Exception (read_price (net (indicative_request base quote))) None.

(** [_request_order_book_snapshot]. *)
Definition request_order_book_snapshot (net : request -> answer)
  (trading_pair : string) : result pydict :=
  mid ← get_indicative_price net trading_pair;
  build_synthetic_book trading_pair mid.

(** [get_last_traded_prices]: the pairs that have a price. *)
Fixpoint get_last_traded_prices_from (net : request -> answer)
  (trading_pairs : list string) (prices : pydict) : result pydict :=
  match trading_pairs with
  | [] => mret prices
  | tp :: rest =>
      price ← get_indicative_price net tp;
      get_last_traded_prices_from net rest
        (match price with
         | Some x => <[tp := VFloat x]> prices
         | None => prices
         end)
  end.

Definition get_last_traded_prices (net : request -> answer)
  (trading_pairs : list string) : result pydict :=
  get_last_traded_prices_from net trading_pairs ∅.

Definition listing_request : request :=
  {| req_method := GET;
     req_url := BASE_URL +:+ LISTING_PAIRS_PATH;
     req_headers := auth_headers (ds_api_key self);
     req_params := None;
     req_json := None |}.

(** [fetch_trading_pairs]: the symbols of the listing, the empty list on
    any failure. *)
Definition fetch_trading_pairs (net : request -> answer)
  : result (list pyval) :=
  except_Exception
    (match net listing_request with
     | Failed e => Raise e
     | Responded status body =>
         _ ← raise_for_status status;
         data ← body;
         pairs ← py_get_default data "pairs" (VList []);
         ps ← py_iter pairs;
         mapM (fun p => py_get_default p "symbol" (VStr "")) ps
     end)
    [].
End DataSource.

(** *** The polling loop [listen_for_order_book_snapshots]

    The loop is a transition system.  It waits in two places: for the
    price of the next pair of the cycle, and in [asyncio.sleep] (at the end
    of the [try] body or in the [except Exception] handler, both followed
    by the next turn of [while True]).  A cancelled task sees
    [CancelledError] at the place it waits. *)
Inductive phase : Type :=
  | Polling (tp : string) (rest : list string)
  | Sleeping
  | Stopped (e : exn).

Record poller : Type := {
  poller_phase : phase;
  poller_output : list (message pydict);
}.

(** What the loop meets at a place where it waits: the answer to the price
    request, with the clock read after it and whether the queue has room
    for [put_nowait]; the end of the sleep; the cancellation of the
    task. *)
Inductive event : Type :=
  | Answered (a : answer) (now : pyfloat) (room : bool)
  | Woken
  | Cancelled.

(** [output.put_nowait(msg)] on a queue with or without room. *)
Definition put_nowait {A : Type} (room : bool) (msg : A) : result A :=
  if room then Ok msg else Raise QueueFull.

Section PollingLoop.
Variable HB_AVAILABLE : bool.
Variable self : DataSource.

(** One turn of the [for] loop. *)
Definition poll_pair (tp : string) (a : answer) (now : pyfloat)
  (room : bool) : result (message pydict) :=
  snapshot ← request_order_book_snapshot self (fun _ => a) tp;
  msg ← snapshot_message_from_exchange HB_AVAILABLE snapshot now
          (Some {[ "trading_pair" := VStr tp ]});
  put_nowait room msg.

(** Where the [for] loop stands with the pairs [tps] left. *)
Definition polling (tps : list string) : phase :=
  match tps with
  | [] => Sleeping
  | tp :: rest => Polling tp rest
  end.

Definition initial : poller :=
  {| poller_phase := polling (ds_trading_pairs self);
     poller_output := [] |}.

Definition step (s : poller) (ev : event) : option poller :=
  match poller_phase s, ev with
  | Polling tp rest, Answered a now room =>
      match poll_pair tp a now room with
      | Ok msg =>
          Some {| poller_phase := polling rest;
                  poller_output := poller_output s ++ [msg] |}
      | Raise e =>
          if is_Exception e
          then Some {| poller_phase := Sleeping;
                       poller_output := poller_output s |}
          else Some {| poller_phase := Stopped e;
                       poller_output := poller_output s |}
      end
  | Polling _ _, Cancelled | Sleeping, Cancelled =>
      Some {| poller_phase := Stopped CancelledError;
              poller_output := poller_output s |}
  | Sleeping, Woken =>
      Some {| poller_phase := polling (ds_trading_pairs self);
              poller_output := poller_output s |}
  | _, _ => None
  end.

(** A run of the loop over a sequence of events. *)
Inductive steps : poller -> list event -> poller -> Prop :=
  | steps_nil s : steps s [] s
  | steps_cons s ev s' evs s'' :
      step s ev = Some s' -> steps s' evs s'' -> steps s (ev :: evs) s''.

Definition is_stopped (s : poller) : bool :=
  match poller_phase s with Stopped _ => true | _ => false end.
End PollingLoop.

(* ===================================================================== *)
(** ** [deluthium_exchange.py] *)
(* ===================================================================== *)

Record Exchange : Type := {
  ex_api_key : string;
  ex_chain_id : Z;
  ex_wallet_address : string;
  ex_trading_pairs : list string;
  ex_pair_cache : gmap string pyval;
}.

(** [_handle_response_errors]: the string code first, then the numeric
    one. *)
Definition handle_response_errors (data : pyval) : result unit :=
  error_code ← py_get data "errorCode";
  known ← (if truthy error_code
           then in_str_table error_code STRING_ERROR_CODES
           else mret None);
  match known with
  | Some description =>
      Raise (RuntimeError ("Deluthium API error [" +:+ py_str error_code
                           +:+ "]: " +:+ description))
  | None =>
      numeric_code ← py_get data "code";
      if truthy numeric_code then
        n ← py_int numeric_code;
        match assoc n NUMERIC_ERROR_CODES with
        | Some description =>
            Raise (RuntimeError ("Deluthium API error [code "
                                 +:+ py_str numeric_code +:+ "]: "
                                 +:+ description))
        | None => mret ()
        end
      else mret ()
  end.

Section Exchange.
Variable self : Exchange.

(** [_pair_cache_key]: an f-string of the chain id and the pair. *)
Definition pair_cache_key (trading_pair : string) : result string :=
  chain ← str_of_int (ex_chain_id self);
  mret (chain +:+ ":" +:+ trading_pair).

(** [_get_cached_pair]. *)
Definition get_cached_pair (trading_pair : string)
  : result (option pyval) :=
  key ← pair_cache_key trading_pair;
  mret (ex_pair_cache self !! key).

Definition firm_quote_payload (base quote : string) (amount : Decimal)
  (is_buy : bool) : pydict :=
  let payload : pydict :=
    {[ "baseToken" := VStr base;
       "quoteToken" := VStr quote;
       "side" := VStr (if is_buy then "buy" else "sell");
       "amount" := VStr (str_of_Decimal amount);
       "chainId" := VInt (ex_chain_id self) ]} in
  if bool_decide (ex_wallet_address self = "") then payload
  else <["walletAddress" := VStr (ex_wallet_address self)]> payload.

Definition firm_quote_request (payload : pydict) : request :=
  {| req_method := POST;
     req_url := BASE_URL +:+ QUOTE_FIRM_PATH;
     req_headers := auth_headers (ex_api_key self);
     req_params := None;
     req_json := Some payload |}.

(** [try: body except aiohttp.ClientError: log; raise]: every exception
    leaves the statement as it came. *)
Definition reraise_ClientError {A : Type} (body : result A) : result A :=
  match body with
  | Ok a => Ok a
  | Raise e => if is_ClientError e then Raise e else Raise e
  end.

(** [_place_order]. *)
Definition place_order (net : request -> answer) (trading_pair : string)
  (amount : Decimal) (is_buy : bool) : result pyval :=
  let deluthium_symbol := convert_symbol_to_deluthium trading_pair in
  '(base, quote) ← unpack2 (str_split "/" deluthium_symbol);
  let payload := firm_quote_payload base quote amount is_buy in
  reraise_ClientError
    (match net (firm_quote_request payload) with
     | Failed e => Raise e
     | Responded _ body =>
         data ← body;
         _ ← handle_response_errors data;
         _ ← py_get_default data "txHash" (VStr "N/A");
         mret data
     end).

(** [_place_cancel]. *)
Definition place_cancel (order_id trading_pair : string) : result bool :=
  mret false.

(** [_update_balances]. *)
Definition update_balances : result unit := mret ().

Definition with_cache (cache : gmap string pyval) : Exchange :=
  {| ex_api_key := ex_api_key self;
     ex_chain_id := ex_chain_id self;
     ex_wallet_address := ex_wallet_address self;
     ex_trading_pairs := ex_trading_pairs self;
     ex_pair_cache := cache |}.

(** [symbol.replace("/", "-")] on whatever [pair_info.get("symbol", "")]
    gave: only a string has [replace]. *)
Definition symbol_to_hummingbot (symbol : pyval) : result string :=
  match symbol with
  | VStr s => Ok (convert_symbol_to_hummingbot s)
  | _ => Raise (AttributeError
                  ("'" +:+ type_name symbol
                   +:+ "' object has no attribute 'replace'"))
  end.

(** The [for] loop of [_populate_pair_cache]: the cache is written entry
    by entry, so what was stored before a failing entry stays. *)
Fixpoint cache_pairs (infos : list pyval) (cache : gmap string pyval)
  : gmap string pyval * result unit :=
  match infos with
  | [] => (cache, Ok ())
  | pair_info :: rest =>
      match (symbol ← py_get_default pair_info "symbol" (VStr "");
             hb_symbol ← symbol_to_hummingbot symbol;
             pair_cache_key hb_symbol) with
      | Ok key => cache_pairs rest (<[key := pair_info]> cache)
      | Raise e => (cache, Raise e)
      end
  end.

Definition pairs_request : request :=
  {| req_method := GET;
     req_url := BASE_URL +:+ LISTING_PAIRS_PATH;
     req_headers := auth_headers (ex_api_key self);
     req_params := None;
     req_json := None |}.

(** [_populate_pair_cache]: the exchange afterwards, and how the call
    ends. *)
Definition populate_pair_cache (net : request -> answer)
  : Exchange * result unit :=
  let fetched :=
    match net pairs_request with
    | Failed e => Raise e
    | Responded status body =>
        _ ← raise_for_status status;
        data ← body;
        pairs ← py_get_default data "pairs" (VList []);
        py_iter pairs
    end in
  match fetched with
  | Raise e => (self, except_Exception (Raise e) ())
  | Ok infos =>
      let '(cache, r) := cache_pairs infos (ex_pair_cache self) in
      (with_cache cache, except_Exception r ())
  end.
End Exchange.

(* ===================================================================== *)
(** * Properties *)
(* ===================================================================== *)

(** ** The symbol codec *)

(** A token holds neither separator. *)
Definition separator_free (s : string) : Prop :=
  str_contains "/" s = false /\ str_contains "-" s = false.

Lemma str_replace_app old new s t :
  str_replace old new (s +:+ t)
  = str_replace old new s +:+ str_replace old new t.
Proof.
  induction s as [|c s IH]; simpl; [reflexivity|].
  now rewrite IH.
Qed.

Lemma str_replace_absent old new s :
  str_contains old s = false -> str_replace old new s = s.
Proof.
  induction s as [|c s IH]; simpl; [reflexivity|].
  intros H. apply orb_false_iff in H as [Hc Hs].
  rewrite Hc, IH by assumption. reflexivity.
Qed.

(** Replacing [a] by [b] and then [b] by [a] gives back a string that held
    no [b]. *)
Lemma str_replace_inverse a b s :
  str_contains b s = false ->
  str_replace b a (str_replace a b s) = s.
Proof.
  induction s as [|c s IH]; simpl; [reflexivity|].
  intros H. apply orb_false_iff in H as [Hc Hs].
  rewrite IH by assumption. f_equal.
  destruct (Ascii.eqb c a) eqn:Ha.
  - rewrite Ascii.eqb_refl. now apply Ascii.eqb_eq in Ha.
  - now rewrite Hc.
Qed.

Lemma str_contains_app c s t :
  str_contains c (s +:+ t) = str_contains c s || str_contains c t.
Proof.
  induction s as [|a s IH]; simpl; [reflexivity|].
  now rewrite IH, orb_assoc.
Qed.

(** C8. The symbol codec round-trips: for separator-free tokens [base] and
    [quote], converting the venue symbol [base/quote] to the host notation
    and back gives [base/quote], and converting the host symbol
    [base-quote] to the venue notation and back gives [base-quote]. *)
Theorem symbol_codec_round_trip (base quote : string) :
  separator_free base -> separator_free quote ->
  convert_symbol_to_deluthium
    (convert_symbol_to_hummingbot (base +:+ "/" +:+ quote))
  = base +:+ "/" +:+ quote
  /\ convert_symbol_to_hummingbot
       (convert_symbol_to_deluthium (base +:+ "-" +:+ quote))
     = base +:+ "-" +:+ quote.
Proof.
  intros [Hb1 Hb2] [Hq1 Hq2].
  unfold convert_symbol_to_deluthium, convert_symbol_to_hummingbot.
  split; apply str_replace_inverse;
    rewrite !str_contains_app; simpl;
    rewrite ?Hb1, ?Hb2, ?Hq1, ?Hq2; reflexivity.
Qed.

Lemma symbol_codec_round_trip_witness :
  convert_symbol_to_deluthium (convert_symbol_to_hummingbot "BNB/USDT")
  = "BNB/USDT"
  /\ convert_symbol_to_hummingbot (convert_symbol_to_deluthium "BNB-USDT")
     = "BNB-USDT".
Proof.
  apply (symbol_codec_round_trip "BNB" "USDT"); split; reflexivity.
Defined.

(** ** Chain identifiers *)

(** C9. [validate_chain_id(56)] is true and [validate_chain_id(999)] is
    false; [get_wrapped_token(999)] raises the error for an unsupported
    chain, a [ValueError] in the code; on each supported chain, 56, 8453 and
    1, [get_wrapped_token] returns the wrapped-token address. *)
Theorem chain_id_validation :
  validate_chain_id 56 = true
  /\ validate_chain_id 999 = false
  /\ get_wrapped_token 999
     = Raise (ValueError
                "Chain ID 999 is not supported. Supported chains: [56, 8453, 1]")
  /\ get_wrapped_token 56 = Ok "0xbb4CdB9CBd36B01bD1cBaEBF2De08d9173bc095c"
  /\ get_wrapped_token 8453 = Ok "0x4200000000000000000000000000000000000006"
  /\ get_wrapped_token 1 = Ok "0xC02aaA39b223FE8D0A0e5C4F27eAD9083C756Cc2".
Proof. repeat split; vm_compute; reflexivity. Qed.

(** ** The synthetic book *)

Definition empty_book (trading_pair : string) : pydict :=
  {[ "bids" := VList []; "asks" := VList [];
     "trading_pair" := VStr trading_pair ]}.

(** C5. When the indicative mid-price is absent, that is when
    [_get_indicative_price] returned [None], [_request_order_book_snapshot]
    returns the book with no bid level and no ask level, and raises
    nothing. *)
Theorem snapshot_empty_without_price (self : DataSource)
  (net : request -> answer) (trading_pair : string) :
  get_indicative_price self net trading_pair = Ok None ->
  request_order_book_snapshot self net trading_pair
  = Ok (empty_book trading_pair)
  /\ empty_book trading_pair !! "bids" = Some (VList [])
  /\ empty_book trading_pair !! "asks" = Some (VList []).
Proof.
  intros H. unfold request_order_book_snapshot. rewrite H.
  repeat split.
Qed.

Definition sample_source : DataSource :=
  {| ds_trading_pairs := ["BNB-USDT"]; ds_api_key := "key";
     ds_chain_id := 56 |}.

Lemma snapshot_empty_without_price_witness :
  request_order_book_snapshot sample_source
    (fun _ => Failed (ClientError "connection refused")) "BNB-USDT"
  = Ok (empty_book "BNB-USDT")
  /\ empty_book "BNB-USDT" !! "bids" = Some (VList [])
  /\ empty_book "BNB-USDT" !! "asks" = Some (VList []).
Proof.
  apply (snapshot_empty_without_price sample_source). reflexivity.
Defined.

(** ** Venue errors *)

(** [needle in hay] for strings. *)
Fixpoint str_prefix (p s : string) : bool :=
  match p, s with
  | EmptyString, _ => true
  | String a p', String b s' => Ascii.eqb a b && str_prefix p' s'
  | String _ _, EmptyString => false
  end.

Fixpoint str_infix (needle hay : string) : bool :=
  str_prefix needle hay
  || match hay with
     | EmptyString => false
     | String _ hay' => str_infix needle hay'
     end.

(** A value of the [errorCode] field that selects no entry of the string
    table without raising: a false value, or a hashable one that is no key. *)
Definition string_code_unknown (v : pyval) : Prop :=
  truthy v = false \/ in_str_table v STRING_ERROR_CODES = Ok None.

(** A value of the [code] field that selects no entry of the numeric table
    without raising: a false value, or one that [int()] takes to a number
    that is no key. *)
Definition numeric_code_unknown (v : pyval) : Prop :=
  truthy v = false
  \/ exists n, py_int v = Ok n /\ assoc n NUMERIC_ERROR_CODES = None.

(** The claim's reading of an unknown code: the value is not one of the
    table's keys. *)
Definition not_string_key (v : pyval) : Prop :=
  forall s, v = VStr s -> assoc s STRING_ERROR_CODES = None.

Definition not_numeric_key (v : pyval) : Prop :=
  forall n, v = VInt n -> assoc n NUMERIC_ERROR_CODES = None.

Definition string_error (code description : string) : exn :=
  RuntimeError ("Deluthium API error [" +:+ code +:+ "]: " +:+ description).

Definition numeric_error (code : pyval) (description : string) : exn :=
  RuntimeError ("Deluthium API error [code " +:+ py_str code +:+ "]: "
                +:+ description).

Lemma dict_get_Some k (d : pydict) v : d !! k = Some v -> dict_get k d = v.
Proof. intros H. unfold dict_get. now rewrite H. Qed.

Lemma dict_get_None k (d : pydict) : d !! k = None -> dict_get k d = VNone.
Proof. intros H. unfold dict_get. now rewrite H. Qed.

Lemma known_string_code_truthy s description :
  assoc s STRING_ERROR_CODES = Some description -> truthy (VStr s) = true.
Proof.
  intros H. simpl. destruct (decide (s = "")) as [->|Hne].
  - vm_compute in H. discriminate.
  - now rewrite bool_decide_eq_false_2.
Qed.

(** A known string code raises its error, whatever the [code] field
    holds. *)
Lemma handle_known_string_code (d : pydict) s description :
  d !! "errorCode" = Some (VStr s) ->
  assoc s STRING_ERROR_CODES = Some description ->
  handle_response_errors (VDict d) = Raise (string_error s description).
Proof.
  intros Hd Hs. unfold handle_response_errors, py_get.
  cbn [mbind result_bind bind]. rewrite (dict_get_Some _ _ _ Hd).
  rewrite (known_string_code_truthy _ _ Hs).
  cbn [in_str_table]. rewrite Hs. reflexivity.
Qed.

(** With no string code selected, the numeric field decides. *)
Lemma handle_without_string_code (d : pydict) :
  string_code_unknown (dict_get "errorCode" d) ->
  handle_response_errors (VDict d)
  = let numeric_code := dict_get "code" d in
    if truthy numeric_code then
      n ← py_int numeric_code;
      match assoc n NUMERIC_ERROR_CODES with
      | Some description => Raise (numeric_error numeric_code description)
      | None => Ok ()
      end
    else Ok ().
Proof.
  intros H. unfold handle_response_errors, py_get.
  cbn [mbind result_bind bind].
  destruct H as [H|H]; rewrite H; [reflexivity|].
  destruct (truthy (dict_get "errorCode" d)); reflexivity.
Qed.

Lemma absent_string_code_unknown (d : pydict) :
  d !! "errorCode" = None -> string_code_unknown (dict_get "errorCode" d).
Proof. intros H. left. now rewrite (dict_get_None _ _ H). Qed.

(** Codes unknown to both tables: the check returns. *)
Lemma handle_unknown_codes (d : pydict) :
  string_code_unknown (dict_get "errorCode" d) ->
  numeric_code_unknown (dict_get "code" d) ->
  handle_response_errors (VDict d) = Ok ().
Proof.
  intros Hs Hn. rewrite (handle_without_string_code _ Hs). cbv zeta.
  destruct Hn as [Hn|(n & Hint & Hnone)].
  - now rewrite Hn.
  - rewrite Hint. cbn [mbind result_bind bind]. rewrite Hnone.
    now destruct (truthy _).
Qed.

(** What [_place_order] does once the pair splits and a body arrives. *)
Lemma place_order_responded (self : Exchange) net tp base quote amount is_buy
  status (d : pydict) :
  unpack2 (str_split "/" (convert_symbol_to_deluthium tp)) = Ok (base, quote) ->
  net (firm_quote_request self
         (firm_quote_payload self base quote amount is_buy))
  = Responded status (Ok (VDict d)) ->
  place_order self net tp amount is_buy
  = (_ ← handle_response_errors (VDict d); Ok (VDict d)).
Proof.
  intros Hsplit Hnet. unfold place_order. rewrite Hsplit.
  cbn [mbind result_bind bind]. rewrite Hnet.
  cbn [mbind result_bind bind].
  destruct (handle_response_errors (VDict d)) as [[]|e]; cbn.
  - reflexivity.
  - now destruct (is_ClientError e).
Qed.

(** C3. For a firm-quote response body [d]: with [errorCode] equal to
    ["QUOTE_EXPIRED"], [_place_order] raises the venue error (a
    [RuntimeError] in the code) with a message that contains "expired";
    with no [errorCode] and [code] equal to 1004 it raises the equivalent
    error; a known string code is raised whatever the [code] field holds,
    the string field being checked first; with both fields absent the raw
    body is returned. *)
Theorem firm_quote_error_normalization (self : Exchange)
  (net : request -> answer) (tp base quote : string) (amount : Decimal)
  (is_buy : bool) (status : Z) (d : pydict) :
  unpack2 (str_split "/" (convert_symbol_to_deluthium tp)) = Ok (base, quote) ->
  net (firm_quote_request self
         (firm_quote_payload self base quote amount is_buy))
  = Responded status (Ok (VDict d)) ->
  (d !! "errorCode" = Some (VStr "QUOTE_EXPIRED") ->
   exists msg,
     handle_response_errors (VDict d) = Raise (RuntimeError msg)
     /\ place_order self net tp amount is_buy = Raise (RuntimeError msg)
     /\ str_infix "expired" msg = true)
  /\ (d !! "errorCode" = None -> d !! "code" = Some (VInt 1004) ->
      exists msg,
        handle_response_errors (VDict d) = Raise (RuntimeError msg)
        /\ place_order self net tp amount is_buy = Raise (RuntimeError msg)
        /\ str_infix "expired" msg = true)
  /\ (forall s description,
        d !! "errorCode" = Some (VStr s) ->
        assoc s STRING_ERROR_CODES = Some description ->
        place_order self net tp amount is_buy
        = Raise (string_error s description))
  /\ (d !! "errorCode" = None -> d !! "code" = None ->
      handle_response_errors (VDict d) = Ok ()
      /\ place_order self net tp amount is_buy = Ok (VDict d)).
Proof.
  intros Hsplit Hnet.
  pose proof (place_order_responded self net tp base quote amount is_buy
                status d Hsplit Hnet) as Hplace.
  repeat apply conj.
  - intros He.
    pose proof (handle_known_string_code d "QUOTE_EXPIRED" _ He eq_refl) as H.
    eexists. rewrite Hplace, H. repeat split.
  - intros He Hc.
    assert (handle_response_errors (VDict d)
            = Raise (numeric_error (VInt 1004) "Quote expired")) as H.
    { rewrite (handle_without_string_code d
                 (absent_string_code_unknown d He)).
      rewrite (dict_get_Some _ _ _ Hc). reflexivity. }
    eexists. rewrite Hplace, H. repeat split.
  - intros s description He Hs.
    rewrite Hplace, (handle_known_string_code d s description He Hs).
    reflexivity.
  - intros He Hc.
    assert (handle_response_errors (VDict d) = Ok ()) as H.
    { apply handle_unknown_codes.
      - now apply absent_string_code_unknown.
      - left. now rewrite (dict_get_None _ _ Hc). }
    split; [exact H|]. now rewrite Hplace, H.
Qed.

Definition sample_exchange : Exchange :=
  {| ex_api_key := "key"; ex_chain_id := 56; ex_wallet_address := "";
     ex_trading_pairs := ["BNB-USDT"]; ex_pair_cache := ∅ |}.

Definition body_expired : pydict :=
  {[ "errorCode" := VStr "QUOTE_EXPIRED"; "code" := VInt 1001 ]}.
Definition body_1004 : pydict := {[ "code" := VInt 1004 ]}.
Definition body_quote : pydict := {[ "txHash" := VStr "0xabc" ]}.

Lemma firm_quote_error_normalization_witness :
  place_order sample_exchange (fun _ => Responded 200 (Ok (VDict body_expired)))
    "BNB-USDT" (Dfin 15 (-1)) true
  = Raise (string_error "QUOTE_EXPIRED"
             "The firm quote has expired. Request a new one.")
  /\ (exists msg,
        place_order sample_exchange
          (fun _ => Responded 200 (Ok (VDict body_1004)))
          "BNB-USDT" (Dfin 15 (-1)) true
        = Raise (RuntimeError msg)
        /\ str_infix "expired" msg = true)
  /\ place_order sample_exchange (fun _ => Responded 200 (Ok (VDict body_quote)))
       "BNB-USDT" (Dfin 15 (-1)) true
     = Ok (VDict body_quote).
Proof.
  repeat apply conj.
  - destruct (firm_quote_error_normalization sample_exchange
                (fun _ => Responded 200 (Ok (VDict body_expired)))
                "BNB-USDT" "BNB" "USDT" (Dfin 15 (-1)) true 200 body_expired
                eq_refl eq_refl) as (_ & _ & H & _).
    apply (H "QUOTE_EXPIRED"); reflexivity.
  - destruct (firm_quote_error_normalization sample_exchange
                (fun _ => Responded 200 (Ok (VDict body_1004)))
                "BNB-USDT" "BNB" "USDT" (Dfin 15 (-1)) true 200 body_1004
                eq_refl eq_refl) as (_ & H & _).
    destruct (H eq_refl eq_refl) as (msg & _ & Hp & Hi).
    exists msg. split; assumption.
  - destruct (firm_quote_error_normalization sample_exchange
                (fun _ => Responded 200 (Ok (VDict body_quote)))
                "BNB-USDT" "BNB" "USDT" (Dfin 15 (-1)) true 200 body_quote
                eq_refl eq_refl) as (_ & _ & _ & H).
    apply H; reflexivity.
Defined.

(** C4, as stated, fails: a body whose [code] is the string ["oops"] has
    no [errorCode], and its [code] is no key of the numeric table, yet
    [int("oops")] raises [ValueError] out of [_handle_response_errors]. *)
Lemma unknown_code_counterexample :
  let d : pydict := {[ "code" := VStr "oops" ]} in
  not_string_key (dict_get "errorCode" d)
  /\ not_numeric_key (dict_get "code" d)
  /\ handle_response_errors (VDict d)
     = Raise (ValueError (InvalidLiteral "int" "oops"))
  /\ handle_response_errors (VDict d) <> Ok ().
Proof.
  cbv zeta. repeat apply conj.
  - intros s H. vm_compute in H. discriminate.
  - intros n H. vm_compute in H. discriminate.
  - reflexivity.
  - discriminate.
Qed.

(** C4, amended. For every response body whose [errorCode] is false or a
    hashable value that is no key of the string table, and whose [code] is
    false or a value that [int()] takes to a number that is no key of the
    numeric table, [_handle_response_errors] returns without raising and
    [_place_order] returns the raw body. *)
Theorem unknown_codes_pass_through (self : Exchange)
  (net : request -> answer) (tp base quote : string) (amount : Decimal)
  (is_buy : bool) (status : Z) (d : pydict) :
  string_code_unknown (dict_get "errorCode" d) ->
  numeric_code_unknown (dict_get "code" d) ->
  handle_response_errors (VDict d) = Ok ()
  /\ (unpack2 (str_split "/" (convert_symbol_to_deluthium tp))
      = Ok (base, quote) ->
      net (firm_quote_request self
             (firm_quote_payload self base quote amount is_buy))
      = Responded status (Ok (VDict d)) ->
      place_order self net tp amount is_buy = Ok (VDict d)).
Proof.
  intros Hs Hn.
  pose proof (handle_unknown_codes d Hs Hn) as H.
  split; [exact H|].
  intros Hsplit Hnet.
  rewrite (place_order_responded self net tp base quote amount is_buy
             status d Hsplit Hnet), H.
  reflexivity.
Qed.

Definition body_unknown : pydict :=
  {[ "errorCode" := VStr "SOMETHING_NEW"; "code" := VInt 4242 ]}.

(** A body whose string code is a number and whose numeric code is written
    in fullwidth digits, and one whose numeric code starts with the file
    separator U+001C, which [str.strip] removes and [int()] does not. *)
Definition body_unlisted : pydict :=
  {[ "errorCode" := VInt 5; "code" := VStr "４２４２" ]}.

Definition body_separator : pydict :=
  {[ "code" := VStr (String (ascii_of_nat 28) "4242") ]}.

Lemma unknown_codes_pass_through_witness :
  handle_response_errors (VDict body_unknown) = Ok ()
  /\ place_order sample_exchange
       (fun _ => Responded 200 (Ok (VDict body_unknown)))
       "BNB-USDT" (Dfin 15 (-1)) true
     = Ok (VDict body_unknown)
  /\ place_order sample_exchange
       (fun _ => Responded 200 (Ok (VDict body_unlisted)))
       "BNB-USDT" (Dfin 15 (-1)) true
     = Ok (VDict body_unlisted).
Proof.
  destruct (unknown_codes_pass_through sample_exchange
              (fun _ => Responded 200 (Ok (VDict body_unknown)))
              "BNB-USDT" "BNB" "USDT" (Dfin 15 (-1)) true 200 body_unknown)
    as [H1 H2].
  - right. reflexivity.
  - right. exists 4242. split; reflexivity.
  - split; [exact H1|]. split; [apply H2; reflexivity|].
    destruct (unknown_codes_pass_through sample_exchange
                (fun _ => Responded 200 (Ok (VDict body_unlisted)))
                "BNB-USDT" "BNB" "USDT" (Dfin 15 (-1)) true 200
                body_unlisted) as [_ H3].
    + right. reflexivity.
    + right. exists 4242. split; vm_compute; reflexivity.
    + apply H3; reflexivity.
Defined.

(** ** The indicative price *)

(** C7, as stated, fails: a pair string without a separator does not
    unpack into two tokens, and the [ValueError] leaves
    [_get_indicative_price], the unpacking standing before the [try]. *)
Lemma indicative_price_counterexample :
  get_indicative_price sample_source
    (fun _ => Responded 200 (Ok (VDict {[ "price" := VStr "600.00" ]})))
    "BNBUSDT"
  = Raise (ValueError "not enough values to unpack (expected 2, got 1)").
Proof. reflexivity. Qed.

(** C7, amended. For every trading-pair string that splits into exactly
    two tokens, [_get_indicative_price] raises nothing that derives from
    [Exception]: a failed request, an error status, an undecodable body, a
    body that is no dictionary, and a price that [float()] rejects all give
    [None], and a missing price gives [None]; only the cancellation of the
    task passes through. *)
Theorem indicative_price_never_raises_Exception (self : DataSource)
  (net : request -> answer) (tp base quote : string) :
  split_pair tp = Ok (base, quote) ->
  let a := net (indicative_request self base quote) in
  (forall e, get_indicative_price self net tp = Raise e -> e = CancelledError)
  /\ (forall e, a = Failed e -> is_Exception e = true ->
      get_indicative_price self net tp = Ok None)
  /\ (forall status body, a = Responded status body -> 400 <= status ->
      get_indicative_price self net tp = Ok None)
  /\ (forall status e, a = Responded status (Raise e) ->
      is_Exception e = true ->
      get_indicative_price self net tp = Ok None)
  /\ (forall status data, a = Responded status (Ok data) ->
      (forall d, data <> VDict d) ->
      get_indicative_price self net tp = Ok None)
  /\ (forall status d, a = Responded status (Ok (VDict d)) ->
      d !! "price" = None ->
      get_indicative_price self net tp = Ok None)
  /\ (forall status d price e, a = Responded status (Ok (VDict d)) ->
      d !! "price" = Some price -> py_float price = Raise e ->
      get_indicative_price self net tp = Ok None).
Proof.
  intros Hsplit a. unfold get_indicative_price. rewrite Hsplit.
  cbn [mbind result_bind bind]. fold a.
  assert (Hexc : forall A (r : result A) (h : A) e,
             except_Exception r h = Raise e -> e = CancelledError).
  { intros A [x|e'] h e; cbn; [discriminate|].
    destruct e'; cbn; congruence. }
  assert (Hpy : forall v, is_Exception
                 match py_float v with Raise e => e | Ok _ => ValueError "" end
               = true).
  { intros v. destruct v as [| | | |s| |]; cbn; try reflexivity.
    - unfold float_of_int. now destruct (round64 n 1).
    - now destruct (parse_float s). }
  repeat apply conj.
  - intros e. apply Hexc.
  - intros e -> He. cbn. now rewrite He.
  - intros status body -> Hst. cbn. unfold raise_for_status.
    now rewrite (proj2 (Z.leb_le _ _) Hst).
  - intros status e -> He. cbn. unfold raise_for_status.
    destruct (400 <=? status); cbn; [reflexivity|]. now rewrite He.
  - intros status data -> Hnd. cbn. unfold raise_for_status.
    destruct (400 <=? status); cbn; [reflexivity|].
    destruct data; try reflexivity. now destruct (Hnd items).
  - intros status d -> Hp. cbn. unfold raise_for_status.
    destruct (400 <=? status); cbn; [reflexivity|].
    now rewrite (dict_get_None _ _ Hp).
  - intros status d price e -> Hp Hf. cbn. unfold raise_for_status.
    destruct (400 <=? status); cbn; [reflexivity|].
    rewrite (dict_get_Some _ _ _ Hp).
    specialize (Hpy price). rewrite Hf in Hpy.
    destruct price; cbn; try reflexivity;
      cbn in Hf; rewrite ?Hf; cbn; rewrite ?Hpy; try reflexivity;
      discriminate.
Qed.

Lemma indicative_price_never_raises_Exception_witness :
  get_indicative_price sample_source
    (fun _ => Failed (ClientError "connection refused")) "BNB-USDT"
  = Ok None.
Proof.
  destruct (indicative_price_never_raises_Exception sample_source
              (fun _ => Failed (ClientError "connection refused"))
              "BNB-USDT" "BNB" "USDT" eq_refl) as (_ & H & _).
  apply (H (ClientError "connection refused")); reflexivity.
Defined.

(** ** Snapshot messages *)

(** The value of a field of the content: the metadata's, else the
    message's, else the default. *)
Definition merged_field (msg md : pydict) (k : string) (dflt : pyval)
  : pyval :=
  default (default dflt (msg !! k)) (md !! k).

Lemma dict_merge_get_default (msg md : pydict) k dflt :
  dict_get_default k dflt (dict_merge msg md) = merged_field msg md k dflt.
Proof.
  unfold dict_get_default, dict_merge, merged_field.
  rewrite lookup_union.
  destruct (md !! k), (msg !! k); reflexivity.
Qed.

Lemma fresh_loc_unused (h : store) : h !! fresh (dom h) = None.
Proof. apply not_elem_of_dom, is_fresh. Qed.

Lemma alloc_frame (h : store) (d : pydict) l d' :
  h !! l = Some d' -> (alloc h d).1 !! l = Some d'.
Proof.
  intros H. unfold alloc. cbn.
  rewrite lookup_insert_ne; [exact H|].
  intros <-. rewrite fresh_loc_unused in H. discriminate.
Qed.

Lemma alloc_lookup (h : store) (d : pydict) :
  (alloc h d).1 !! (alloc h d).2 = Some d.
Proof. unfold alloc. cbn. apply lookup_insert_eq. Qed.

Definition merged_content (dmsg dmd : pydict) (n : Z) : pydict :=
  {[ "trading_pair" := merged_field dmsg dmd "trading_pair" (VStr "");
     "update_id" := merged_field dmsg dmd "update_id" (VInt n);
     "bids" := merged_field dmsg dmd "bids" (VList []);
     "asks" := merged_field dmsg dmd "asks" (VList []) ]}.

Lemma deref_lookup (h : store) l d : h !! l = Some d -> deref h l = d.
Proof. intros H. unfold deref. now rewrite H. Qed.

Lemma book_content_merged (dmsg dmd : pydict) timestamp :
  book_content (dict_merge dmsg dmd) timestamp
  = (n ← int_of_float timestamp; Ok (merged_content dmsg dmd n)).
Proof.
  unfold book_content. destruct (int_of_float timestamp); cbn; [|reflexivity].
  now rewrite !dict_merge_get_default.
Qed.

(** The store and the result of the call with non-empty metadata. *)
Lemma snapshot_message_ref_unfold (HB_AVAILABLE : bool) (h : store)
  (msg md : loc) (dmsg dmd : pydict) (timestamp : pyfloat) :
  h !! msg = Some dmsg -> h !! md = Some dmd -> dmd <> ∅ ->
  snapshot_message_from_exchange_ref HB_AVAILABLE h msg timestamp (Some md)
  = let h1 := (alloc h (dict_merge dmsg dmd)).1 in
    match int_of_float timestamp with
    | Raise e => (h1, Raise e)
    | Ok n =>
        ((alloc h1 (merged_content dmsg dmd n)).1,
         Ok (wrap_message HB_AVAILABLE SNAPSHOT
               (alloc h1 (merged_content dmsg dmd n)).2 timestamp))
    end.
Proof.
  intros Hmsg Hmd Hne.
  unfold snapshot_message_from_exchange_ref.
  cbn [fmap option_fmap option_map default from_option id metadata_given].
  rewrite (deref_lookup _ _ _ Hmsg), (deref_lookup _ _ _ Hmd).
  rewrite bool_decide_eq_false_2 by assumption. cbn [negb].
  pose proof (alloc_lookup h (dict_merge dmsg dmd)) as Hm.
  destruct (alloc h (dict_merge dmsg dmd)) as [h1 l1]. cbn [fst snd] in *.
  rewrite (deref_lookup _ _ _ Hm), book_content_merged.
  destruct (int_of_float timestamp) as [n|e]; cbn; [|reflexivity].
  now destruct (alloc h1 (merged_content dmsg dmd n)).
Qed.

(** C10. [snapshot_message_from_exchange], called with references to a
    message dictionary and to a non-empty metadata dictionary, leaves every
    dictionary of the caller as it was, the message in particular; the
    content is a new dictionary in which a field is the metadata's when the
    metadata has it, else the message's, else the default: [""] for
    [trading_pair], [int(timestamp)] for [update_id], [[]] for [bids] and
    [asks].  The default [int(timestamp)] is evaluated in any case, and the
    call raises what it raises. *)
Theorem snapshot_message_frame (HB_AVAILABLE : bool) (h : store)
  (msg md : loc) (dmsg dmd : pydict) (timestamp : pyfloat) :
  h !! msg = Some dmsg -> h !! md = Some dmd -> dmd <> ∅ ->
  let out := snapshot_message_from_exchange_ref HB_AVAILABLE h msg timestamp
               (Some md) in
  out.1 !! msg = Some dmsg
  /\ (forall l d, h !! l = Some d -> out.1 !! l = Some d)
  /\ match int_of_float timestamp with
     | Raise e => out.2 = Raise e
     | Ok n =>
         exists c,
           out.2 = Ok (wrap_message HB_AVAILABLE SNAPSHOT c timestamp)
           /\ h !! c = None
           /\ out.1 !! c
              = Some {[ "trading_pair" :=
                          merged_field dmsg dmd "trading_pair" (VStr "");
                        "update_id" :=
                          merged_field dmsg dmd "update_id" (VInt n);
                        "bids" := merged_field dmsg dmd "bids" (VList []);
                        "asks" := merged_field dmsg dmd "asks" (VList []) ]}
     end.
Proof.
  intros Hmsg Hmd Hne out. subst out.
  rewrite (snapshot_message_ref_unfold HB_AVAILABLE h msg md dmsg dmd
             timestamp Hmsg Hmd Hne).
  cbv zeta. set (h1 := (alloc h (dict_merge dmsg dmd)).1).
  assert (Hframe1 : forall l d, h !! l = Some d -> h1 !! l = Some d)
    by (intros l d; apply alloc_frame).
  destruct (int_of_float timestamp) as [n|e]; cbn [fst snd].
  - assert (Hframe : forall l d, h !! l = Some d ->
              (alloc h1 (merged_content dmsg dmd n)).1 !! l = Some d)
      by (intros l d Hl; apply alloc_frame, Hframe1, Hl).
    split; [now apply Hframe|]. split; [exact Hframe|].
    exists (alloc h1 (merged_content dmsg dmd n)).2.
    split; [reflexivity|]. split; [|apply alloc_lookup].
    destruct (h !! (alloc h1 (merged_content dmsg dmd n)).2) as [d|] eqn:Hc;
      [|reflexivity].
    apply Hframe1 in Hc. unfold alloc in Hc. cbn [snd] in Hc.
    rewrite fresh_loc_unused in Hc. discriminate.
  - split; [now apply Hframe1|]. split; [exact Hframe1|reflexivity].
Qed.

Definition sample_store : store :=
  {[ 1%positive := {[ "trading_pair" := VStr "OLD";
                      "bids" := VList [VInt 1] ]};
     2%positive := {[ "trading_pair" := VStr "BNB-USDT" ]} ]}.

Lemma snapshot_message_frame_witness :
  (snapshot_message_from_exchange_ref false sample_store 1%positive
     (Ffin (2 ^ 52) (-42)) (Some 2%positive)).1 !! 1%positive
  = Some {[ "trading_pair" := VStr "OLD"; "bids" := VList [VInt 1] ]}.
Proof.
  assert (Hne : ({[ "trading_pair" := VStr "BNB-USDT" ]} : pydict) <> ∅).
  { intros H. apply (f_equal (fun m : pydict => m !! "trading_pair")) in H.
    vm_compute in H. discriminate. }
  destruct (snapshot_message_frame false sample_store 1%positive 2%positive
              {[ "trading_pair" := VStr "OLD"; "bids" := VList [VInt 1] ]}
              {[ "trading_pair" := VStr "BNB-USDT" ]} (Ffin (2 ^ 52) (-42))
              eq_refl eq_refl Hne) as [H _].
  exact H.
Defined.

(** ** The polling loop *)

Section PollingLoopFacts.
Variable HB_AVAILABLE : bool.
Variable self : DataSource.


(** A step never removes a message from the output. *)
Lemma step_output_grows s ev s' :
  step HB_AVAILABLE self s ev = Some s' ->
  exists new, poller_output s' = (poller_output s ++ new)%list.
Proof.
  unfold step.
  destruct (poller_phase s) as [tp rest| |e], ev as [a now room| |];
    try discriminate.
  - destruct (poll_pair HB_AVAILABLE self _ _ _ _) as [msg|e].
    + intros [= <-]. now exists [msg].
    + destruct (is_Exception e); intros [= <-]; exists []; cbn;
        now rewrite app_nil_r.
  - intros [= <-]. exists []. cbn. now rewrite app_nil_r.
  - intros [= <-]. exists []. cbn. now rewrite app_nil_r.
  - intros [= <-]. exists []. cbn. now rewrite app_nil_r.
Qed.

(** A stopped loop takes no step. *)
Lemma stopped_is_final s ev : is_stopped s = true -> step HB_AVAILABLE self s ev = None.
Proof.
  unfold is_stopped, step.
  destruct (poller_phase s); try discriminate. now destruct ev.
Qed.

(** A step into [Stopped] is a cancellation. *)
Lemma step_stops_by_cancellation s ev s' e :
  step HB_AVAILABLE self s ev = Some s' -> poller_phase s' = Stopped e ->
  e = CancelledError
  /\ (ev = Cancelled
      \/ exists tp rest a now room,
           poller_phase s = Polling tp rest
           /\ ev = Answered a now room
           /\ poll_pair HB_AVAILABLE self tp a now room = Raise CancelledError).
Proof.
  unfold step.
  destruct (poller_phase s) as [tp rest| |e0] eqn:Hph,
           ev as [a now room| |]; try discriminate.
  - destruct (poll_pair HB_AVAILABLE self _ _ _ _) as [msg|e1] eqn:Hpoll.
    + intros [= <-]. cbn. unfold polling. destruct rest; discriminate.
    + destruct (is_Exception e1) eqn:He1; intros [= <-]; cbn;
        [discriminate|].
      intros [= <-]. destruct e1; try discriminate.
      split; [reflexivity|]. right. now exists tp, rest, a, now, room.
  - intros [= <-]. cbn. intros [= <-]. auto.
  - intros [= <-]. cbn. unfold polling.
    destruct (ds_trading_pairs self); discriminate.
  - intros [= <-]. cbn. intros [= <-]. auto.
Qed.

Lemma initial_not_stopped : is_stopped (initial self) = false.
Proof.
  unfold is_stopped, initial, polling. cbn.
  now destruct (ds_trading_pairs self).
Qed.

Lemma steps_stopped_by_cancellation s evs s' :
  steps HB_AVAILABLE self s evs s' ->
  (forall e, poller_phase s = Stopped e -> e = CancelledError) ->
  forall e, poller_phase s' = Stopped e -> e = CancelledError.
Proof.
  induction 1 as [s|s ev s1 evs s2 Hstep _ IH]; intros Hs; [exact Hs|].
  apply IH. intros e He.
  now destruct (step_stops_by_cancellation _ _ _ _ Hstep He).
Qed.

Lemma steps_from_stopped s evs s' :
  is_stopped s = true -> steps HB_AVAILABLE self s evs s' -> evs = [] /\ s' = s.
Proof.
  intros Hs H. destruct H as [s|s ev s1 evs s2 Hstep _]; [auto|].
  rewrite (stopped_is_final _ ev Hs) in Hstep. discriminate.
Qed.

(** A cancellation that reaches the task while the price is fetched, at
    the request or at the reading of the body, leaves
    [_get_indicative_price], [_request_order_book_snapshot] and the turn of
    the [for] loop as [CancelledError]. *)
Lemma cancelled_fetch_raises tp base quote a now room :
  split_pair tp = Ok (base, quote) ->
  (a = Failed CancelledError
   \/ exists status, status < 400
                     /\ a = Responded status (Raise CancelledError)) ->
  poll_pair HB_AVAILABLE self tp a now room = Raise CancelledError.
Proof.
  intros Hsplit Ha.
  unfold poll_pair, request_order_book_snapshot, get_indicative_price.
  rewrite Hsplit. cbn [mbind result_bind bind].
  destruct Ha as [->|(status & Hst & ->)]; [reflexivity|].
  unfold read_price, raise_for_status.
  rewrite (proj2 (Z.leb_gt _ _) Hst). reflexivity.
Qed.

(** A turn that ends in [CancelledError] stops the loop and emits
    nothing. *)
Lemma step_cancelled_fetch s tp rest a now room :
  poller_phase s = Polling tp rest ->
  poll_pair HB_AVAILABLE self tp a now room = Raise CancelledError ->
  step HB_AVAILABLE self s (Answered a now room)
  = Some {| poller_phase := Stopped CancelledError;
            poller_output := poller_output s |}.
Proof. intros Hph Hpoll. unfold step. now rewrite Hph, Hpoll. Qed.

(** The step that stops the loop emits nothing. *)
Lemma step_into_stopped_silent s ev s' :
  step HB_AVAILABLE self s ev = Some s' -> is_stopped s' = true ->
  poller_output s' = poller_output s.
Proof.
  unfold step, is_stopped.
  destruct (poller_phase s) as [tp rest| |e0], ev as [a now room| |];
    try discriminate.
  - destruct (poll_pair HB_AVAILABLE self _ _ _ _) as [msg|e1].
    + intros [= <-]. cbn. unfold polling. destruct rest; discriminate.
    + destruct (is_Exception e1); intros [= <-]; cbn;
        [discriminate|reflexivity].
  - intros [= <-]. reflexivity.
  - intros [= <-]. cbn. unfold polling.
    destruct (ds_trading_pairs self); discriminate.
  - intros [= <-]. reflexivity.
Qed.

(** C6. The polling loop as a step relation.  An exception raised in a
    cycle, other than the cancellation, is caught: the loop goes to sleep
    with its output unchanged and, woken, starts the next cycle.  The loop
    stops only by cancellation: a step into [Stopped] is the cancellation of
    the task, at the sleep or at the awaited price, and every run from the
    initial state that is stopped was stopped by [CancelledError].  The
    cancellation stops the loop wherever it waits and emits nothing, and a
    stopped loop takes no further step, so that nothing is emitted after
    it.  In particular a cancellation in the middle of a fetch, at the
    request or at the reading of the body, is not taken for a failed
    fetch: the turn ends in [CancelledError], the loop stops there with
    its output as it was, no snapshot is emitted for the pair, and in every
    run the step that stops is the last and adds nothing. *)
Theorem polling_loop_isolation_and_cancellation :
  (forall s tp rest a now room e,
      poller_phase s = Polling tp rest ->
      poll_pair HB_AVAILABLE self tp a now room = Raise e -> is_Exception e = true ->
      exists s1 s2,
        step HB_AVAILABLE self s (Answered a now room) = Some s1
        /\ poller_phase s1 = Sleeping
        /\ poller_output s1 = poller_output s
        /\ step HB_AVAILABLE self s1 Woken = Some s2
        /\ poller_phase s2 = polling (ds_trading_pairs self)
        /\ poller_output s2 = poller_output s)
  /\ (forall s ev s' e,
        step HB_AVAILABLE self s ev = Some s' -> poller_phase s' = Stopped e ->
        e = CancelledError
        /\ (ev = Cancelled
            \/ exists tp rest a now room,
                 poller_phase s = Polling tp rest
                 /\ ev = Answered a now room
                 /\ poll_pair HB_AVAILABLE self tp a now room = Raise CancelledError))
  /\ (forall evs s e,
        steps HB_AVAILABLE self (initial self) evs s -> poller_phase s = Stopped e ->
        e = CancelledError)
  /\ (forall s, is_stopped s = false ->
        exists s', step HB_AVAILABLE self s Cancelled = Some s'
                   /\ poller_phase s' = Stopped CancelledError
                   /\ poller_output s' = poller_output s)
  /\ (forall s ev, is_stopped s = true -> step HB_AVAILABLE self s ev = None)
  /\ (forall s evs s',
        is_stopped s = true -> steps HB_AVAILABLE self s evs s' ->
        poller_output s' = poller_output s)
  /\ (forall s tp rest base quote a now room,
        poller_phase s = Polling tp rest ->
        split_pair tp = Ok (base, quote) ->
        (a = Failed CancelledError
         \/ exists status, status < 400
                           /\ a = Responded status (Raise CancelledError)) ->
        get_indicative_price self (fun _ => a) tp = Raise CancelledError
        /\ poll_pair HB_AVAILABLE self tp a now room = Raise CancelledError
        /\ step HB_AVAILABLE self s (Answered a now room)
           = Some {| poller_phase := Stopped CancelledError;
                     poller_output := poller_output s |})
  /\ (forall s tp rest a now room,
        poller_phase s = Polling tp rest ->
        poll_pair HB_AVAILABLE self tp a now room = Raise CancelledError ->
        step HB_AVAILABLE self s (Answered a now room)
        = Some {| poller_phase := Stopped CancelledError;
                  poller_output := poller_output s |})
  /\ (forall s0 evs s1 ev s2 evs2 s3,
        steps HB_AVAILABLE self s0 evs s1 ->
        step HB_AVAILABLE self s1 ev = Some s2 -> is_stopped s2 = true ->
        steps HB_AVAILABLE self s2 evs2 s3 ->
        evs2 = [] /\ s3 = s2 /\ poller_output s3 = poller_output s1).
Proof.
  repeat apply conj.
  - intros s tp rest a now room e Hph Hpoll He.
    eexists _, _. unfold step. rewrite Hph, Hpoll, He.
    cbn. repeat split.
  - apply step_stops_by_cancellation.
  - intros evs s e Hrun. revert e.
    apply (steps_stopped_by_cancellation _ _ _ Hrun).
    intros e He. pose proof initial_not_stopped as H.
    unfold is_stopped in H. rewrite He in H. discriminate.
  - intros s Hs. unfold is_stopped in Hs. unfold step.
    destruct (poller_phase s); try discriminate; eexists; repeat split.
  - apply stopped_is_final.
  - intros s evs s' Hs Hrun.
    now destruct (steps_from_stopped _ _ _ Hs Hrun) as [_ ->].
  - intros s tp rest base quote a now room Hph Hsplit Ha.
    pose proof (cancelled_fetch_raises tp base quote a now room Hsplit Ha)
      as Hpoll.
    split; [|split; [exact Hpoll|now apply (step_cancelled_fetch s tp rest)]].
    unfold get_indicative_price. rewrite Hsplit.
    cbn [mbind result_bind bind].
    destruct Ha as [->|(status & Hst & ->)]; [reflexivity|].
    unfold read_price, raise_for_status.
    rewrite (proj2 (Z.leb_gt _ _) Hst). reflexivity.
  - apply step_cancelled_fetch.
  - intros s0 evs s1 ev s2 evs2 s3 _ Hstep Hstop Hrun.
    destruct (steps_from_stopped _ _ _ Hstop Hrun) as [-> ->].
    repeat split. now apply (step_into_stopped_silent s1 ev).
Qed.
End PollingLoopFacts.

Definition priced_answer : answer :=
  Responded 200 (Ok (VDict {[ "price" := VStr "600.00" ]})).

Lemma polling_loop_isolation_and_cancellation_witness :
  (exists s1 s2,
     step false sample_source (initial sample_source)
       (Answered priced_answer (Ffin (2 ^ 52) (-42)) false) = Some s1
     /\ poller_phase s1 = Sleeping
     /\ poller_output s1 = []
     /\ step false sample_source s1 Woken = Some s2
     /\ poller_phase s2 = Polling "BNB-USDT" []
     /\ poller_output s2 = [])
  /\ step false sample_source (initial sample_source)
       (Answered (Responded 200 (Raise CancelledError))
          (Ffin (2 ^ 52) (-42)) true)
     = Some {| poller_phase := Stopped CancelledError; poller_output := [] |}.
Proof.
  split.
  - destruct (polling_loop_isolation_and_cancellation false sample_source)
      as (H & _).
    apply (H (initial sample_source) "BNB-USDT" [] priced_answer
             (Ffin (2 ^ 52) (-42)) false QueueFull); reflexivity.
  - destruct (polling_loop_isolation_and_cancellation false sample_source)
      as (_ & _ & _ & _ & _ & _ & H & _).
    assert (Hst : 200 < 400) by lia.
    destruct (H (initial sample_source) "BNB-USDT" [] "BNB" "USDT"
                (Responded 200 (Raise CancelledError))
                (Ffin (2 ^ 52) (-42)) true eq_refl eq_refl
                (or_intror (ex_intro _ 200 (conj Hst eq_refl))))
      as (_ & _ & Hstep).
    exact Hstep.
Defined.

(** ** Floats and decimals *)

(** *** Rounding to the nearest integer *)

Lemma div_half_even_spec n d :
  0 < d ->
  let q := div_half_even n d in
  2 * (n - q * d) <= d /\ 2 * (q * d - n) <= d
  /\ (2 * (n - q * d) = d -> Z.even q = true)
  /\ (2 * (q * d - n) = d -> Z.even q = true).
Proof.
  intros Hd. unfold div_half_even.
  pose proof (Z.div_mod n d ltac:(lia)) as Hdm.
  pose proof (Z.mod_pos_bound n d Hd) as Hr.
  set (q := n / d) in *. set (r := n mod d) in *.
  destruct (Z.ltb_spec (2 * r) d); [cbv zeta; repeat split; nia|].
  destruct (Z.ltb_spec d (2 * r)); [cbv zeta; repeat split; nia|].
  destruct (Z.even q) eqn:Hev; cbv zeta.
  - repeat split; try nia. intros _. exact Hev.
  - repeat split; try nia. intros _.
    rewrite Z.even_add, Hev. reflexivity.
Qed.

Lemma div_half_even_mono n1 d1 n2 d2 :
  0 < d1 -> 0 < d2 -> n1 * d2 <= n2 * d1 ->
  div_half_even n1 d1 <= div_half_even n2 d2.
Proof.
  intros H1 H2 Hle.
  destruct (div_half_even_spec n1 d1 H1) as (A1 & B1 & C1 & D1).
  destruct (div_half_even_spec n2 d2 H2) as (A2 & B2 & C2 & D2).
  set (q1 := div_half_even n1 d1) in *.
  set (q2 := div_half_even n2 d2) in *.
  destruct (Z.le_gt_cases q1 q2) as [|Hgt]; [assumption|exfalso].
  assert (Hdd : 0 < d1 * d2) by nia.
  assert (L1 : (2 * q1 - 1) * (d1 * d2) <= 2 * (n1 * d2)) by nia.
  assert (L2 : 2 * (n2 * d1) <= (2 * q2 + 1) * (d1 * d2)) by nia.
  assert (L3 : (2 * q1 - 1) * (d1 * d2) <= (2 * q2 + 1) * (d1 * d2)) by lia.
  assert (Hq : q1 = q2 + 1) by nia.
  assert (E1 : 2 * (q1 * d1 - n1) = d1).
  { subst q1. assert (2 * (n1 * d2) <= (2 * q2 + 1) * (d1 * d2)) by lia.
    nia. }
  assert (E2 : 2 * (n2 - q2 * d2) = d2).
  { assert ((2 * q2 + 1) * (d1 * d2) <= 2 * (n2 * d1)) by nia. nia. }
  specialize (D1 E1). specialize (C2 E2).
  rewrite Hq, Z.even_add, C2 in D1. discriminate.
Qed.

Lemma div_half_even_exact q d : 0 < d -> div_half_even (q * d) d = q.
Proof.
  intros Hd. unfold div_half_even.
  rewrite Z.div_mul, Z.mod_mul by lia.
  destruct (Z.ltb_spec (2 * 0) d); [reflexivity|lia].
Qed.


Lemma div_half_even_nonneg n d : 0 <= n -> 0 < d -> 0 <= div_half_even n d.
Proof.
  intros Hn Hd.
  change 0 with (div_half_even (0 * 1) 1) at 1.
  rewrite div_half_even_exact by lia.
  rewrite <- (div_half_even_exact 0 1) by lia.
  apply div_half_even_mono; lia.
Qed.

(** *** Rounding to binary64 *)

(** The spacing exponent of the floats around [n / d], and the rounded
    value, both in units of [2^-1074]. *)
Definition spacing (n d : Z) : Z :=
  Z.max 0 (Z.log2 (n * 2 ^ 1074 / d) - 52).

Definition round_units (n d : Z) : Z :=
  div_half_even (n * 2 ^ 1074) (d * 2 ^ spacing n d) * 2 ^ spacing n d.

Lemma spacing_nonneg n d : 0 <= spacing n d.
Proof. unfold spacing. lia. Qed.







Lemma round_units_nonneg n d : 0 <= n -> 0 < d -> 0 <= round_units n d.
Proof.
  intros Hn Hd. unfold round_units.
  pose proof (spacing_nonneg n d).
  assert (0 < 2 ^ spacing n d) by (apply Z.pow_pos_nonneg; lia).
  apply Z.mul_nonneg_nonneg; [|lia].
  apply div_half_even_nonneg; nia.
Qed.









(** *** [repr] reads back *)




(** *** Decimals and their floats *)










(** ** The levels of the synthetic book *)

(** The book of [_request_order_book_snapshot] with a price: two levels a
    side, of sizes 1.0 and 2.0. *)
Definition synthetic_book (trading_pair : string)
  (best_bid bid2 best_ask ask2 : pyfloat) : pydict :=
  {[ "trading_pair" := VStr trading_pair;
     "bids" := VList [level best_bid f1_0; level bid2 f2_0];
     "asks" := VList [level best_ask f1_0; level ask2 f2_0] ]}.

(** A float literal of the source text. *)
Definition float_lit (s : string) : pyfloat := default Fnan (parse_float s).















(** ** The order of the levels *)







Lemma fle_refl_fin m e : fle (Ffin m e) (Ffin m e) = true.
Proof. unfold fle. cbn. now rewrite Z.compare_refl. Qed.



(** *** Floats that the rounding keeps apart *)













(* ===================================================================== *)
(** * Further properties of the connector *)
(* ===================================================================== *)

(** ** [deluthium_utils.py] *)

Lemma str_replace_removes a b s :
  a <> b -> str_contains a (str_replace a b s) = false.
Proof.
  intros Hab. induction s as [|c s IH]; cbn; [reflexivity|].
  rewrite IH, orb_false_r.
  destruct (Ascii.eqb c a) eqn:Hc; [|exact Hc].
  apply Ascii.eqb_neq. congruence.
Qed.

Lemma str_replace_length a b s :
  String.length (str_replace a b s) = String.length s.
Proof. induction s as [|c s IH]; cbn; congruence. Qed.

Lemma str_replace_idempotent a b s :
  a <> b -> str_replace a b (str_replace a b s) = str_replace a b s.
Proof.
  intros Hab. apply str_replace_absent, str_replace_removes, Hab.
Qed.

(** X1. Whatever the input, the host form of a symbol holds no ["/"] and
    the venue form no ["-"]; both conversions keep the length and change
    nothing when applied a second time. *)
Theorem symbol_codec_normal_forms (symbol : string) :
  str_contains "/" (convert_symbol_to_hummingbot symbol) = false
  /\ str_contains "-" (convert_symbol_to_deluthium symbol) = false
  /\ String.length (convert_symbol_to_hummingbot symbol)
     = String.length symbol
  /\ String.length (convert_symbol_to_deluthium symbol)
     = String.length symbol
  /\ convert_symbol_to_hummingbot (convert_symbol_to_hummingbot symbol)
     = convert_symbol_to_hummingbot symbol
  /\ convert_symbol_to_deluthium (convert_symbol_to_deluthium symbol)
     = convert_symbol_to_deluthium symbol.
Proof.
  unfold convert_symbol_to_hummingbot, convert_symbol_to_deluthium.
  repeat apply conj;
    first [ apply str_replace_removes; discriminate
          | apply str_replace_length
          | apply str_replace_idempotent; discriminate ].
Qed.

(** X2. A symbol that holds a ["-"] does not come back from the trip
    through the host form: [A-B/C] returns as [A/B/C], and no symbol with
    a ["-"] in it returns as itself. *)
Theorem symbol_codec_lossy_on_mixed_separators :
  convert_symbol_to_deluthium (convert_symbol_to_hummingbot "A-B/C")
  = "A/B/C"
  /\ forall symbol,
       str_contains "-" symbol = true ->
       convert_symbol_to_deluthium (convert_symbol_to_hummingbot symbol)
       <> symbol.
Proof.
  split; [reflexivity|].
  intros symbol H Heq.
  assert (Hno : str_contains "-"
                  (convert_symbol_to_deluthium
                     (convert_symbol_to_hummingbot symbol)) = false)
    by (apply str_replace_removes; discriminate).
  rewrite Heq in Hno. congruence.
Qed.

(** X3. The two chain tables agree: [get_wrapped_token] returns an address
    exactly for the chain ids [validate_chain_id] accepts, and raises
    [ValueError] for every other one. *)
Theorem wrapped_token_iff_valid_chain (chain_id : Z) :
  (validate_chain_id chain_id = true
   <-> exists addr, get_wrapped_token chain_id = Ok addr)
  /\ (validate_chain_id chain_id = false
      <-> exists msg, get_wrapped_token chain_id = Raise (ValueError msg))
  /\ (validate_chain_id chain_id = true
      <-> chain_id = 56 \/ chain_id = 8453 \/ chain_id = 1).
Proof.
  unfold validate_chain_id, get_wrapped_token, SUPPORTED_CHAINS,
    WRAPPED_TOKENS. cbn [assoc].
  assert (Hn : ~ is_Some (@None string))
    by (intros [? ?]; discriminate).
  destruct (decide (chain_id = 56)) as [->|H1];
    [|destruct (decide (chain_id = 8453)) as [->|H2];
      [|destruct (decide (chain_id = 1)) as [->|H3]]].
  all: rewrite ?bool_decide_eq_true, ?bool_decide_eq_false.
  all: repeat apply conj; intros H.
  all: try (destruct H as [? H]; discriminate).
  all: try (exfalso; apply H; eauto; fail).
  all: try (exfalso; exact (Hn H)).
  all: try lia.
  all: try (unfold str_of_int; destruct (Z.abs chain_id <? _);
            cbn [mbind result_bind bind]; eauto; fail).
  all: try (exfalso; destruct H as [addr H]; unfold str_of_int in H;
            destruct (Z.abs chain_id <? _); discriminate).
  all: eauto.
Qed.

(** ** [deluthium_exchange.py] *)

(** X4. [_handle_response_errors] returns on a dictionary body exactly
    when neither field selects a table entry or makes the lookup raise:
    [errorCode] is false, or it is hashable and no key of the string table
    (a string that is no key, or a number or a boolean, which equal no
    key); and [code] is false, or [int()] accepts it and its integer is no
    key of the numeric table. *)
Theorem handle_response_errors_returns_iff (d : pydict) :
  handle_response_errors (VDict d) = Ok ()
  <-> string_code_unknown (dict_get "errorCode" d)
      /\ numeric_code_unknown (dict_get "code" d).
Proof.
  split; [|intros [Hs Hn]; now apply handle_unknown_codes].
  intros H.
  assert (Hs : string_code_unknown (dict_get "errorCode" d)).
  { unfold handle_response_errors, py_get in H.
    cbn [mbind result_bind bind] in H.
    unfold string_code_unknown.
    destruct (truthy (dict_get "errorCode" d)); [right|now left].
    destruct (in_str_table (dict_get "errorCode" d) STRING_ERROR_CODES)
      as [[description|]|e]; cbn in H; try discriminate. reflexivity. }
  split; [exact Hs|].
  rewrite (handle_without_string_code d Hs) in H. cbv zeta in H.
  unfold numeric_code_unknown.
  destruct (truthy (dict_get "code" d)); [right|now left].
  destruct (py_int (dict_get "code" d)) as [n|e];
    cbn [mbind result_bind bind] in H; [|discriminate].
  exists n. split; [reflexivity|].
  destruct (assoc n NUMERIC_ERROR_CODES); [discriminate|reflexivity].
Qed.

(** X5. [_place_order] hands every failure of the transport to its caller
    as it is: an exception of the request, or of decoding the body, leaves
    the call unchanged; and the HTTP status is never looked at, the result
    depends on the body alone. *)
Theorem place_order_propagates_transport_errors (self : Exchange)
  (net : request -> answer) (tp base quote : string) (amount : Decimal)
  (is_buy : bool) :
  unpack2 (str_split "/" (convert_symbol_to_deluthium tp)) = Ok (base, quote) ->
  let a := net (firm_quote_request self
                  (firm_quote_payload self base quote amount is_buy)) in
  (forall e, a = Failed e -> place_order self net tp amount is_buy = Raise e)
  /\ (forall status e, a = Responded status (Raise e) ->
      place_order self net tp amount is_buy = Raise e)
  /\ (forall status body net' status',
        a = Responded status body ->
        net' (firm_quote_request self
                (firm_quote_payload self base quote amount is_buy))
        = Responded status' body ->
        place_order self net' tp amount is_buy
        = place_order self net tp amount is_buy).
Proof.
  intros Hsplit a. subst a. unfold place_order. rewrite Hsplit.
  cbn [mbind result_bind bind].
  repeat apply conj.
  - intros e ->. cbn. now destruct (is_ClientError e).
  - intros status e ->. cbn. now destruct (is_ClientError e).
  - intros status body net' status' -> ->. reflexivity.
Qed.

Lemma place_order_propagates_transport_errors_witness :
  place_order sample_exchange (fun _ => Failed (ClientError "timeout"))
    "BNB-USDT" (Dfin 15 (-1)) true
  = Raise (ClientError "timeout").
Proof.
  destruct (place_order_propagates_transport_errors sample_exchange
              (fun _ => Failed (ClientError "timeout"))
              "BNB-USDT" "BNB" "USDT" (Dfin 15 (-1)) true eq_refl)
    as (H & _).
  now apply H.
Defined.

(** X6. A trading pair that does not split into two tokens makes
    [_place_order] raise [ValueError] before any request is sent: the
    result is the same for every network. *)
Theorem place_order_rejects_malformed_pair (self : Exchange)
  (net : request -> answer) (tp : string) (amount : Decimal)
  (is_buy : bool) (e : exn) :
  unpack2 (str_split "/" (convert_symbol_to_deluthium tp)) = Raise e ->
  place_order self net tp amount is_buy = Raise e
  /\ exists msg, e = ValueError msg.
Proof.
  intros H. unfold place_order. rewrite H. split; [reflexivity|].
  unfold unpack2 in H.
  destruct (str_split "/" (convert_symbol_to_deluthium tp))
    as [|x [|y [|z l]]]; try discriminate; injection H as <-; eauto.
Qed.

Lemma place_order_rejects_malformed_pair_witness :
  place_order sample_exchange (fun _ => Responded 200 (Ok (VDict ∅)))
    "BNB-USDT-PERP" (Dfin 15 (-1)) true
  = Raise (ValueError "too many values to unpack (expected 2)").
Proof.
  now destruct (place_order_rejects_malformed_pair sample_exchange
                  (fun _ => Responded 200 (Ok (VDict ∅)))
                  "BNB-USDT-PERP" (Dfin 15 (-1)) true
                  (ValueError "too many values to unpack (expected 2)")
                  eq_refl) as [H _].
Defined.

(** ** [deluthium_api_order_book_data_source.py] *)

(** X7. [fetch_trading_pairs] fails softly: a failed request, an error
    status, an undecodable body and a body that is no dictionary all give
    the empty list, and nothing is raised to the caller but the
    cancellation of the task. *)
Theorem fetch_trading_pairs_soft_fail (self : DataSource)
  (net : request -> answer) :
  let a := net (listing_request self) in
  (forall e, fetch_trading_pairs self net = Raise e -> e = CancelledError)
  /\ (forall e, a = Failed e -> is_Exception e = true ->
      fetch_trading_pairs self net = Ok [])
  /\ (forall status body, a = Responded status body -> 400 <= status ->
      fetch_trading_pairs self net = Ok [])
  /\ (forall status e, a = Responded status (Raise e) ->
      is_Exception e = true ->
      fetch_trading_pairs self net = Ok [])
  /\ (forall status data, a = Responded status (Ok data) ->
      (forall d, data <> VDict d) ->
      fetch_trading_pairs self net = Ok []).
Proof.
  intros a. subst a. unfold fetch_trading_pairs.
  repeat apply conj.
  - intros e.
    destruct (match net (listing_request self) with
              | Failed e0 => _ | Responded _ _ => _ end) as [l|e'];
      cbn; [discriminate|].
    destruct e'; cbn; congruence.
  - intros e -> He. cbn. now rewrite He.
  - intros status body -> Hst. unfold raise_for_status.
    now rewrite (proj2 (Z.leb_le _ _) Hst).
  - intros status e -> He. unfold raise_for_status.
    destruct (400 <=? status); cbn; [reflexivity|]. now rewrite He.
  - intros status data -> Hnd. unfold raise_for_status.
    destruct (400 <=? status); cbn; [reflexivity|].
    destruct data; try reflexivity. now destruct (Hnd items).
Qed.

Lemma mapM_symbols (infos : list pydict) :
  mapM (fun p => py_get_default p "symbol" (VStr "")) (VDict <$> infos)
  = Ok ((fun i => dict_get_default "symbol" (VStr "") i) <$> infos).
Proof.
  induction infos as [|i infos IH]; [reflexivity|].
  cbn [fmap list_fmap mapM]. fold (@fmap list _ _ _ VDict infos).
  cbn [py_get_default mbind result_bind bind]. rewrite IH. reflexivity.
Qed.

(** X8. On a response below status 400 whose body lists dictionaries
    under ["pairs"], [fetch_trading_pairs] returns their symbols in the
    order of the listing, the empty string standing for an entry without a
    symbol. *)
Theorem fetch_trading_pairs_symbols (self : DataSource)
  (net : request -> answer) (status : Z) (d : pydict)
  (infos : list pydict) :
  net (listing_request self) = Responded status (Ok (VDict d)) ->
  status < 400 ->
  d !! "pairs" = Some (VList (VDict <$> infos)) ->
  fetch_trading_pairs self net
  = Ok ((fun i => dict_get_default "symbol" (VStr "") i) <$> infos).
Proof.
  intros Hnet Hst Hp. unfold fetch_trading_pairs. rewrite Hnet.
  unfold raise_for_status. rewrite (proj2 (Z.leb_gt _ _) Hst).
  cbn [mbind result_bind bind py_get_default].
  unfold dict_get_default at 1. rewrite Hp.
  cbn [default from_option id py_iter mbind result_bind bind].
  now rewrite mapM_symbols.
Qed.

Definition listing_body : pydict :=
  {[ "pairs" := VList [VDict {[ "symbol" := VStr "BNB/USDT" ]};
                       VDict {[ "base" := VStr "ETH" ]}] ]}.

Lemma fetch_trading_pairs_symbols_witness :
  fetch_trading_pairs sample_source
    (fun _ => Responded 200 (Ok (VDict listing_body)))
  = Ok [VStr "BNB/USDT"; VStr ""].
Proof.
  assert (Hst : 200 < 400) by lia.
  exact (fetch_trading_pairs_symbols sample_source
           (fun _ => Responded 200 (Ok (VDict listing_body))) 200
           listing_body
           [{[ "symbol" := VStr "BNB/USDT" ]}; {[ "base" := VStr "ETH" ]}]
           eq_refl Hst eq_refl).
Defined.

(** X9. For a pair that splits into two tokens and a response below
    status 400 whose body is a dictionary with a price that [float()]
    accepts, [_get_indicative_price] returns that float. *)
Theorem indicative_price_success (self : DataSource)
  (net : request -> answer) (tp base quote : string) (status : Z)
  (d : pydict) (price : pyval) (x : pyfloat) :
  split_pair tp = Ok (base, quote) ->
  net (indicative_request self base quote) = Responded status (Ok (VDict d)) ->
  status < 400 ->
  d !! "price" = Some price -> price <> VNone -> py_float price = Ok x ->
  get_indicative_price self net tp = Ok (Some x).
Proof.
  intros Hsplit Hnet Hst Hp Hnn Hx.
  unfold get_indicative_price. rewrite Hsplit.
  cbn [mbind result_bind bind]. rewrite Hnet. unfold read_price.
  unfold raise_for_status. rewrite (proj2 (Z.leb_gt _ _) Hst).
  cbn [mbind result_bind bind py_get]. rewrite (dict_get_Some _ _ _ Hp).
  destruct price; try congruence; rewrite Hx; reflexivity.
Qed.

Lemma indicative_price_success_witness :
  get_indicative_price sample_source (fun _ => priced_answer) "BNB-USDT"
  = Ok (Some (float_lit "600.0")).
Proof.
  apply (indicative_price_success sample_source _ "BNB-USDT" "BNB" "USDT"
           200 {[ "price" := VStr "600.00" ]} (VStr "600.00")).
  - reflexivity.
  - reflexivity.
  - lia.
  - reflexivity.
  - discriminate.
  - reflexivity.
Defined.

(** The price [_get_indicative_price] finds for a pair, if any. *)
Definition priced (self : DataSource) (net : request -> answer)
  (tp : string) : option pyfloat :=
  match get_indicative_price self net tp with
  | Ok (Some x) => Some x
  | _ => None
  end.

Lemma last_traded_prices_from (self : DataSource) net tps (acc : pydict) :
  (forall tp, tp ∈ tps -> exists p, get_indicative_price self net tp = Ok p) ->
  exists prices,
    get_last_traded_prices_from self net tps acc = Ok prices
    /\ forall tp,
         prices !! tp
         = match priced self net tp with
           | Some x => if decide (tp ∈ tps) then Some (VFloat x)
                       else acc !! tp
           | None => acc !! tp
           end.
Proof.
  revert acc. induction tps as [|t rest IH]; intros acc Hall.
  - exists acc. split; [reflexivity|]. intros tp.
    destruct (priced self net tp); [|reflexivity].
    destruct (decide (tp ∈ [])) as [Hin|]; [|reflexivity].
    now apply elem_of_nil in Hin.
  - destruct (Hall t ltac:(left)) as [p Hp].
    cbn [get_last_traded_prices_from]. rewrite Hp.
    cbn [mbind result_bind bind].
    destruct (IH (match p with
                  | Some x => <[t := VFloat x]> acc
                  | None => acc
                  end)) as (prices & Hrun & Hlook).
    { intros tp Hin. apply Hall. now right. }
    exists prices. split; [exact Hrun|]. intros tp. rewrite Hlook.
    destruct (priced self net tp) as [x|] eqn:Hx.
    + destruct (decide (tp ∈ rest)) as [Hin|Hnin].
      * rewrite decide_True by (now right). reflexivity.
      * destruct (decide (tp = t)) as [->|Hne].
        -- rewrite decide_True by left.
           unfold priced in Hx. rewrite Hp in Hx.
           destruct p as [y|]; [|discriminate]. injection Hx as ->.
           apply lookup_insert_eq.
        -- rewrite decide_False
             by (intros Hin; apply elem_of_cons in Hin as [?|?]; tauto).
           destruct p; [now rewrite lookup_insert_ne|reflexivity].
    + destruct p as [y|]; [|reflexivity].
      destruct (decide (tp = t)) as [->|Hne].
      * unfold priced in Hx. now rewrite Hp in Hx.
      * now rewrite lookup_insert_ne.
Qed.

(** X10. When every requested pair is answered (no pair is malformed and
    the task is not cancelled), [get_last_traded_prices] returns exactly
    the priced pairs: a pair is a key of the result when it was requested
    and has a price, and its value is that price. *)
Theorem last_traded_prices_are_the_priced_pairs (self : DataSource)
  (net : request -> answer) (tps : list string) :
  (forall tp, tp ∈ tps -> exists p, get_indicative_price self net tp = Ok p) ->
  exists prices,
    get_last_traded_prices self net tps = Ok prices
    /\ forall tp v,
         prices !! tp = Some v
         <-> tp ∈ tps /\ exists x, priced self net tp = Some x /\ v = VFloat x.
Proof.
  intros Hall.
  destruct (last_traded_prices_from self net tps ∅ Hall)
    as (prices & Hrun & Hlook).
  exists prices. split; [exact Hrun|]. intros tp v. rewrite Hlook.
  rewrite lookup_empty.
  destruct (priced self net tp) as [x|].
  - destruct (decide (tp ∈ tps)) as [Hin|Hnin].
    + split.
      * intros [= <-]. eauto.
      * intros (_ & y & [= <-] & ->). reflexivity.
    + split; [discriminate|]. tauto.
  - split; [discriminate|]. intros (_ & y & Hy & _). discriminate.
Qed.

Lemma last_traded_prices_are_the_priced_pairs_witness :
  exists prices,
    get_last_traded_prices sample_source (fun _ => priced_answer)
      ["BNB-USDT"] = Ok prices
    /\ prices !! "BNB-USDT" = Some (VFloat (float_lit "600.0")).
Proof.
  destruct (last_traded_prices_are_the_priced_pairs sample_source
              (fun _ => priced_answer) ["BNB-USDT"])
    as (prices & Hrun & Hlook).
  - intros tp Hin. apply list_elem_of_singleton in Hin as ->.
    eexists. reflexivity.
  - exists prices. split; [exact Hrun|]. apply Hlook.
    split; [apply list_elem_of_singleton; reflexivity|].
    eexists. split; reflexivity.
Defined.

(** ** The pair cache *)

Lemma cache_pairs_keeps_keys (self : Exchange) infos cache k :
  is_Some (cache !! k) ->
  is_Some ((cache_pairs self infos cache).1 !! k).
Proof.
  revert cache. induction infos as [|i infos IH]; intros cache Hk;
    [exact Hk|].
  cbn [cache_pairs].
  match goal with
  | |- context [match ?x with Ok _ => _ | Raise _ => _ end] =>
      destruct x as [key|e]
  end; [|exact Hk].
  apply IH. destruct (decide (key = k)) as [<-|Hne].
  - rewrite lookup_insert_eq. eauto.
  - now rewrite lookup_insert_ne.
Qed.

(** X11. [_populate_pair_cache] raises nothing but the cancellation of
    the task, never drops a key of the cache, changes no other field of
    the exchange, and leaves the exchange as it was when the request
    itself fails. *)
Theorem populate_pair_cache_soft_fail (self : Exchange)
  (net : request -> answer) :
  let out := populate_pair_cache self net in
  (forall e, out.2 = Raise e -> e = CancelledError)
  /\ (forall k, is_Some (ex_pair_cache self !! k) ->
                is_Some (ex_pair_cache out.1 !! k))
  /\ (ex_api_key out.1 = ex_api_key self
      /\ ex_chain_id out.1 = ex_chain_id self
      /\ ex_wallet_address out.1 = ex_wallet_address self
      /\ ex_trading_pairs out.1 = ex_trading_pairs self)
  /\ (forall e, net (pairs_request self) = Failed e -> out.1 = self).
Proof.
  cbv zeta. unfold populate_pair_cache.
  assert (Hexc : forall (r : result unit) e,
             except_Exception r () = Raise e -> e = CancelledError).
  { intros [x|e'] e; cbn; [discriminate|].
    destruct e'; cbn; congruence. }
  set (fetched := match net (pairs_request self) with
                  | Failed e => _ | Responded _ _ => _ end).
  repeat apply conj.
  - intros e. destruct fetched as [infos|e']; [|apply Hexc].
    destruct (cache_pairs self infos (ex_pair_cache self)) as [cache r].
    apply Hexc.
  - intros k Hk. destruct fetched as [infos|e']; [|exact Hk].
    pose proof (cache_pairs_keeps_keys self infos _ k Hk) as H.
    now destruct (cache_pairs self infos (ex_pair_cache self)).
  - destruct fetched as [infos|e']; [|reflexivity].
    now destruct (cache_pairs self infos (ex_pair_cache self)).
  - destruct fetched as [infos|e']; [|reflexivity].
    now destruct (cache_pairs self infos (ex_pair_cache self)).
  - destruct fetched as [infos|e']; [|reflexivity].
    now destruct (cache_pairs self infos (ex_pair_cache self)).
  - destruct fetched as [infos|e']; [|reflexivity].
    now destruct (cache_pairs self infos (ex_pair_cache self)).
  - intros e He. subst fetched. rewrite He. reflexivity.
Qed.

(** The symbol of a listing entry, when it is a string. *)
Definition info_symbol (i : pydict) : option string :=
  match dict_get_default "symbol" (VStr "") i with
  | VStr s => Some s
  | _ => None
  end.

(** The key under which a listing entry is cached. *)
Definition info_key (self : Exchange) (i : pydict) : option string :=
  s ← info_symbol i;
  match pair_cache_key self (convert_symbol_to_hummingbot s) with
  | Ok key => Some key
  | Raise _ => None
  end.

(** The key of a pair on an exchange whose chain id is short enough to
    print. *)
Lemma pair_cache_key_printable (self : Exchange) tp :
  Z.abs (ex_chain_id self) < 10 ^ int_max_str_digits ->
  pair_cache_key self tp = Ok (pretty (ex_chain_id self) +:+ ":" +:+ tp).
Proof.
  intros H. unfold pair_cache_key, str_of_int.
  rewrite (proj2 (Z.ltb_lt _ _) H). reflexivity.
Qed.

Lemma cache_pairs_step (self : Exchange) (i : pydict) infos cache s key :
  info_symbol i = Some s ->
  pair_cache_key self (convert_symbol_to_hummingbot s) = Ok key ->
  cache_pairs self (VDict i :: infos) cache
  = cache_pairs self infos (<[key := VDict i]> cache).
Proof.
  unfold info_symbol. intros H Hkey. cbn [cache_pairs py_get_default].
  cbn [mbind result_bind bind].
  destruct (dict_get_default "symbol" (VStr "") i); try discriminate.
  injection H as ->. cbn [symbol_to_hummingbot mbind result_bind bind].
  now rewrite Hkey.
Qed.

Lemma cache_pairs_lookup_other (self : Exchange) (infos : list pydict)
  cache k :
  Z.abs (ex_chain_id self) < 10 ^ int_max_str_digits ->
  Forall (fun i => is_Some (info_symbol i)) infos ->
  Forall (fun i => info_key self i <> Some k) infos ->
  (cache_pairs self (VDict <$> infos) cache).2 = Ok ()
  /\ (cache_pairs self (VDict <$> infos) cache).1 !! k = cache !! k.
Proof.
  intros Hc. revert cache.
  induction infos as [|i infos IH]; intros cache Hs Hk;
    [split; reflexivity|].
  apply Forall_cons in Hs as [[s His] Hs].
  apply Forall_cons in Hk as [Hik Hk].
  cbn [fmap list_fmap]. fold (@fmap list _ _ _ VDict infos).
  pose proof (pair_cache_key_printable self
                (convert_symbol_to_hummingbot s) Hc) as Hkey.
  rewrite (cache_pairs_step self i _ cache s _ His Hkey).
  destruct (IH (<[pretty (ex_chain_id self) +:+ ":"
                  +:+ convert_symbol_to_hummingbot s := VDict i]> cache)
              Hs Hk) as [Hr Hl].
  split; [exact Hr|]. rewrite Hl. apply lookup_insert_ne.
  intros Heq. apply Hik. unfold info_key. rewrite His.
  cbn [mbind option_bind]. rewrite Hkey. congruence.
Qed.

Lemma populate_pair_cache_listing (self : Exchange)
  (net : request -> answer) (status : Z) (d : pydict) (infos : list pyval) :
  net (pairs_request self) = Responded status (Ok (VDict d)) ->
  status < 400 ->
  d !! "pairs" = Some (VList infos) ->
  populate_pair_cache self net
  = (with_cache self (cache_pairs self infos (ex_pair_cache self)).1,
     except_Exception (cache_pairs self infos (ex_pair_cache self)).2 ()).
Proof.
  intros Hnet Hst Hp. unfold populate_pair_cache. rewrite Hnet.
  unfold raise_for_status. rewrite (proj2 (Z.leb_gt _ _) Hst).
  cbn [mbind result_bind bind py_get_default].
  unfold dict_get_default. rewrite Hp.
  cbn [default from_option id py_iter].
  now destruct (cache_pairs self infos (ex_pair_cache self)).
Qed.

(** X12. On an exchange whose chain id is short enough to print, after
    [_populate_pair_cache] has read a listing of dictionaries whose symbols
    are strings, [_get_cached_pair] finds an entry of the listing under its
    host symbol, provided no later entry of the listing has the same host
    symbol. *)
Theorem populate_then_get_cached_pair (self : Exchange)
  (net : request -> answer) (status : Z) (d : pydict)
  (before after : list pydict) (i : pydict) (s : string) :
  Z.abs (ex_chain_id self) < 10 ^ int_max_str_digits ->
  net (pairs_request self) = Responded status (Ok (VDict d)) ->
  status < 400 ->
  d !! "pairs" = Some (VList (VDict <$> (before ++ i :: after)%list)) ->
  Forall (fun j => is_Some (info_symbol j)) (before ++ i :: after)%list ->
  info_symbol i = Some s ->
  Forall (fun j => info_key self j <> info_key self i) after ->
  let out := populate_pair_cache self net in
  out.2 = Ok ()
  /\ get_cached_pair out.1 (convert_symbol_to_hummingbot s)
     = Ok (Some (VDict i)).
Proof.
  intros Hc Hnet Hst Hp Hall Hi Hafter. cbv zeta.
  rewrite (populate_pair_cache_listing self net status d _ Hnet Hst Hp).
  cbn [fst snd].
  apply Forall_app in Hall as [Hb Hia].
  apply Forall_cons in Hia as [_ Ha].
  set (key := pretty (ex_chain_id self) +:+ ":"
              +:+ convert_symbol_to_hummingbot s).
  assert (Hkey : forall tp, pair_cache_key self tp
                            = Ok (pretty (ex_chain_id self) +:+ ":" +:+ tp))
    by (intros tp; now apply pair_cache_key_printable).
  assert (Hik : info_key self i = Some key).
  { unfold info_key. rewrite Hi. cbn [mbind option_bind].
    now rewrite Hkey. }
  rewrite Hik in Hafter.
  rewrite fmap_app. cbn [fmap list_fmap].
  fold (@fmap list _ _ _ VDict after).
  assert (Hgen : forall cache,
    (cache_pairs self ((VDict <$> before) ++ VDict i :: (VDict <$> after))%list
       cache).2 = Ok ()
    /\ (cache_pairs self ((VDict <$> before) ++ VDict i :: (VDict <$> after))%list
          cache).1 !! key
       = Some (VDict i)).
  { clear Hp. induction before as [|b before IHb]; intros cache.
    - cbn [fmap list_fmap app].
      rewrite (cache_pairs_step self i _ cache s key Hi (Hkey _)).
      destruct (cache_pairs_lookup_other self after
                  (<[key := VDict i]> cache) _ Hc Ha Hafter) as [Hr Hl].
      split; [exact Hr|]. rewrite Hl. apply lookup_insert_eq.
    - apply Forall_cons in Hb as [[sb Hsb] Hb].
      cbn [fmap list_fmap app]. fold (@fmap list _ _ _ VDict before).
      rewrite (cache_pairs_step self b _ cache sb _ Hsb (Hkey _)).
      apply IHb, Hb. }
  destruct (Hgen (ex_pair_cache self)) as [Hr Hl].
  rewrite Hr. split; [reflexivity|].
  unfold get_cached_pair.
  assert (Hkey' : pair_cache_key
                    (with_cache self
                       (cache_pairs self
                          ((VDict <$> before) ++ VDict i :: (VDict <$> after))%list
                          (ex_pair_cache self)).1)
                    (convert_symbol_to_hummingbot s) = Ok key)
    by (apply (pair_cache_key_printable (with_cache self _)); exact Hc).
  rewrite Hkey'. cbn [mbind result_bind bind mret result_ret].
  cbn [ex_pair_cache with_cache]. now rewrite Hl.
Qed.

Definition cached_listing : pydict :=
  {[ "pairs" := VList [VDict {[ "symbol" := VStr "BNB/USDT" ]}] ]}.

Lemma populate_then_get_cached_pair_witness :
  get_cached_pair
    (populate_pair_cache sample_exchange
       (fun _ => Responded 200 (Ok (VDict cached_listing)))).1
    "BNB-USDT"
  = Ok (Some (VDict {[ "symbol" := VStr "BNB/USDT" ]})).
Proof.
  assert (Hst : 200 < 400) by lia.
  assert (Hc : Z.abs (ex_chain_id sample_exchange) < 10 ^ int_max_str_digits)
    by (vm_compute; reflexivity).
  destruct (populate_then_get_cached_pair sample_exchange
              (fun _ => Responded 200 (Ok (VDict cached_listing)))
              200 cached_listing [] []
              {[ "symbol" := VStr "BNB/USDT" ]} "BNB/USDT"
              Hc eq_refl Hst eq_refl) as [_ H].
  - repeat constructor. eexists. reflexivity.
  - reflexivity.
  - constructor.
  - exact H.
Defined.

(** X22. A chain id of more than 4300 digits cannot be printed: the
    f-string of [_pair_cache_key] raises [ValueError], so that
    [_get_cached_pair] raises it for every pair, and [_populate_pair_cache]
    meets it at the first entry of the listing, swallows it and stores
    nothing. *)
Theorem unprintable_chain_id_disables_cache (self : Exchange)
  (net : request -> answer) (status : Z) (d : pydict) (i : pydict)
  (infos : list pyval) :
  10 ^ int_max_str_digits <= Z.abs (ex_chain_id self) ->
  (forall tp, exists msg, get_cached_pair self tp = Raise (ValueError msg))
  /\ (net (pairs_request self) = Responded status (Ok (VDict d)) ->
      status < 400 ->
      d !! "pairs" = Some (VList (VDict i :: infos)) ->
      is_Some (info_symbol i) ->
      populate_pair_cache self net = (self, Ok ())).
Proof.
  intros Hc.
  assert (Hkey : forall tp, exists msg,
             pair_cache_key self tp = Raise (ValueError msg)).
  { intros tp. unfold pair_cache_key, str_of_int.
    rewrite (proj2 (Z.ltb_ge _ _) Hc). cbn [mbind result_bind bind]. eauto. }
  split.
  - intros tp. destruct (Hkey tp) as [msg Hmsg]. exists msg.
    unfold get_cached_pair. now rewrite Hmsg.
  - intros Hnet Hst Hp [s Hs].
    rewrite (populate_pair_cache_listing self net status d _ Hnet Hst Hp).
    unfold info_symbol in Hs. cbn [cache_pairs py_get_default].
    cbn [mbind result_bind bind].
    destruct (dict_get_default "symbol" (VStr "") i); try discriminate.
    cbn [symbol_to_hummingbot mbind result_bind bind].
    destruct (Hkey (convert_symbol_to_hummingbot s0)) as [msg ->].
    cbn [fst snd except_Exception is_Exception].
    now destruct self.
Qed.

Definition unprintable_exchange : Exchange :=
  {| ex_api_key := "key"; ex_chain_id := 10 ^ 4300; ex_wallet_address := "";
     ex_trading_pairs := ["BNB-USDT"]; ex_pair_cache := ∅ |}.

Lemma unprintable_chain_id_disables_cache_witness :
  (exists msg,
     get_cached_pair unprintable_exchange "BNB-USDT"
     = Raise (ValueError msg))
  /\ populate_pair_cache unprintable_exchange
       (fun _ => Responded 200 (Ok (VDict cached_listing)))
     = (unprintable_exchange, Ok ()).
Proof.
  assert (Hc : 10 ^ int_max_str_digits
               <= Z.abs (ex_chain_id unprintable_exchange))
    by (vm_compute; discriminate).
  assert (Hst : 200 < 400) by lia.
  destruct (unprintable_chain_id_disables_cache unprintable_exchange
              (fun _ => Responded 200 (Ok (VDict cached_listing)))
              200 cached_listing {[ "symbol" := VStr "BNB/USDT" ]} [] Hc)
    as [H1 H2].
  split; [apply H1|].
  apply H2; [reflexivity|exact Hst|reflexivity|].
  eexists. reflexivity.
Defined.

(** ** More on the polling loop *)

Lemma steps_app HB self s evs1 s1 evs2 s2 :
  steps HB self s evs1 s1 -> steps HB self s1 evs2 s2 ->
  steps HB self s (evs1 ++ evs2)%list s2.
Proof.
  induction 1 as [s|s ev s' evs s'' Hstep _ IH]; intros H2; [exact H2|].
  cbn. eapply steps_cons; [exact Hstep|]. now apply IH.
Qed.

(** X13. Along every run of the loop the output only grows at its end:
    what was emitted stays, in its order, and each event adds at most one
    message. *)
Theorem polling_output_append_only (HB_AVAILABLE : bool)
  (self : DataSource) (s s' : poller) (evs : list event) :
  steps HB_AVAILABLE self s evs s' ->
  exists new,
    poller_output s' = (poller_output s ++ new)%list
    /\ (length new <= length evs)%nat.
Proof.
  induction 1 as [s|s ev s1 evs s2 Hstep _ IH].
  - exists []. split; [now rewrite app_nil_r|cbn; lia].
  - destruct IH as (new2 & Hout2 & Hlen2).
    assert (H1 : exists new1,
               poller_output s1 = (poller_output s ++ new1)%list
               /\ (length new1 <= 1)%nat).
    { unfold step in Hstep.
      destruct (poller_phase s) as [tp rest| |e], ev as [a now room| |];
        try discriminate.
      - destruct (poll_pair _ _ _ _ _ _) as [msg|e].
        + injection Hstep as <-. exists [msg]. split; [reflexivity|cbn; lia].
        + destruct (is_Exception e); injection Hstep as <-; exists [];
            (split; [cbn; now rewrite app_nil_r|cbn; lia]).
      - injection Hstep as <-. exists [].
        split; [cbn; now rewrite app_nil_r|cbn; lia].
      - injection Hstep as <-. exists [].
        split; [cbn; now rewrite app_nil_r|cbn; lia].
      - injection Hstep as <-. exists [].
        split; [cbn; now rewrite app_nil_r|cbn; lia]. }
    destruct H1 as (new1 & Hout1 & Hlen1).
    exists (new1 ++ new2)%list. split.
    + now rewrite Hout2, Hout1, app_assoc.
    + rewrite length_app. cbn. lia.
Qed.

(** One answered pair of a cycle: the pair, the answer, the clock, and the
    message the turn of the [for] loop builds. *)
Definition turn : Type := string * answer * pyfloat * message pydict.

Definition turn_pair (t : turn) : string := t.1.1.1.
Definition turn_event (t : turn) : event := Answered t.1.1.2 t.1.2 true.
Definition turn_message (t : turn) : message pydict := t.2.

Definition turn_ok (HB : bool) (self : DataSource) (t : turn) : Prop :=
  poll_pair HB self (turn_pair t) t.1.1.2 t.1.2 true = Ok (turn_message t).

Lemma polling_turns HB self (turns : list turn) out :
  Forall (turn_ok HB self) turns ->
  steps HB self
    {| poller_phase := polling (turn_pair <$> turns); poller_output := out |}
    (turn_event <$> turns)
    {| poller_phase := Sleeping;
       poller_output := (out ++ (turn_message <$> turns))%list |}.
Proof.
  revert out. induction turns as [|t turns IH]; intros out Hall.
  - cbn. rewrite app_nil_r. apply steps_nil.
  - apply Forall_cons in Hall as [Ht Hall].
    cbn [fmap list_fmap polling].
    fold (@fmap list _ _ _ turn_pair turns).
    fold (@fmap list _ _ _ turn_event turns).
    fold (@fmap list _ _ _ turn_message turns).
    eapply steps_cons.
    + unfold step. cbn [poller_phase turn_event]. rewrite Ht. reflexivity.
    + cbn [poller_output].
      replace (out ++ turn_message t :: (turn_message <$> turns))%list
        with ((out ++ [turn_message t]) ++ (turn_message <$> turns))%list
        by (now rewrite <- app_assoc).
      apply IH, Hall.
Qed.

(** X14. A cycle in which every pair is answered and every message finds
    room in the queue emits one message a pair, in the order of the
    configured pairs, and ends asleep; woken, the loop starts the next
    cycle with the first pair again. *)
Theorem polling_cycle_emits_in_order (HB_AVAILABLE : bool)
  (self : DataSource) (turns : list turn) :
  ds_trading_pairs self = turn_pair <$> turns ->
  Forall (turn_ok HB_AVAILABLE self) turns ->
  steps HB_AVAILABLE self (initial self) (turn_event <$> turns)
    {| poller_phase := Sleeping;
       poller_output := turn_message <$> turns |}
  /\ step HB_AVAILABLE self
       {| poller_phase := Sleeping;
          poller_output := turn_message <$> turns |} Woken
     = Some {| poller_phase := polling (ds_trading_pairs self);
               poller_output := turn_message <$> turns |}.
Proof.
  intros Hpairs Hall. split; [|reflexivity].
  unfold initial. rewrite Hpairs.
  exact (polling_turns HB_AVAILABLE self turns [] Hall).
Qed.

Definition sample_turn : turn :=
  ("BNB-USDT", priced_answer, Ffin (2 ^ 52) (-42),
   match poll_pair false sample_source "BNB-USDT" priced_answer
           (Ffin (2 ^ 52) (-42)) true with
   | Ok msg => msg
   | Raise _ => PlainContent ∅
   end).

Lemma polling_cycle_emits_in_order_witness :
  steps false sample_source (initial sample_source)
    [Answered priced_answer (Ffin (2 ^ 52) (-42)) true]
    {| poller_phase := Sleeping;
       poller_output := [turn_message sample_turn] |}.
Proof.
  destruct (polling_cycle_emits_in_order false sample_source [sample_turn])
    as [H _].
  - reflexivity.
  - constructor; [|constructor]. vm_compute. reflexivity.
  - exact H.
Defined.

Lemma polling_output_append_only_witness :
  exists s s' new,
    steps false sample_source s
      [Woken; Answered priced_answer (Ffin (2 ^ 52) (-41)) true] s'
    /\ poller_output s = [turn_message sample_turn]
    /\ poller_output s' = (poller_output s ++ new)%list
    /\ (length new <= 2)%nat
    /\ length new = 1%nat.
Proof.
  set (s := {| poller_phase := Sleeping;
               poller_output := [turn_message sample_turn] |}).
  assert (Hrun : exists s',
             steps false sample_source s
               [Woken; Answered priced_answer (Ffin (2 ^ 52) (-41)) true] s'
             /\ length (poller_output s') = 2%nat).
  { eexists. split.
    - eapply steps_cons; [reflexivity|].
      eapply steps_cons; [vm_compute; reflexivity|]. apply steps_nil.
    - reflexivity. }
  destruct Hrun as (s' & Hrun & Hlen').
  destruct (polling_output_append_only false sample_source s s' _ Hrun)
    as (new & Hout & Hlen).
  exists s, s', new. repeat apply conj; try assumption; try reflexivity.
  apply (f_equal (@length _)) in Hout. rewrite length_app, Hlen' in Hout.
  cbn [length poller_output s] in Hout. lia.
Defined.

(** ** More on the synthetic book *)

Lemma build_synthetic_book_shape tp mid book :
  build_synthetic_book tp mid = Ok book ->
  book = empty_book tp
  \/ exists bid bid2 ask ask2, book = synthetic_book tp bid bid2 ask ask2.
Proof.
  unfold build_synthetic_book. destruct mid as [mid|].
  - destruct (dmul (Decimal_of_float_str mid) SYNTHETIC_SPREAD_RATIO)
      as [mr|?]; cbn [mbind result_bind bind]; [|discriminate].
    destruct (dsub (Decimal_of_float_str mid) (ddiv2 mr)) as [bid|?];
      cbn [mbind result_bind bind]; [|discriminate].
    destruct (dadd (Decimal_of_float_str mid) (ddiv2 mr)) as [ask|?];
      cbn [mbind result_bind bind]; [|discriminate].
    destruct (dmul (ddiv2 mr) (Decimal_of_int 2)) as [twice|?];
      cbn [mbind result_bind bind]; [|discriminate].
    destruct (dsub (Decimal_of_float_str mid) twice) as [bid2|?];
      cbn [mbind result_bind bind]; [|discriminate].
    destruct (dadd (Decimal_of_float_str mid) twice) as [ask2|?];
      cbn [mbind result_bind bind]; [|discriminate].
    intros [= <-]. right. now eexists _, _, _, _.
  - intros [= <-]. now left.
Qed.

(** X15. Every message the loop emits for a pair names that pair, takes
    its update id from the clock, [int(time.time())], and carries either
    no level at all or exactly two bid and two ask levels of sizes 1.0 and
    2.0; it is emitted only when the queue has room. *)
Theorem emitted_message_content (HB_AVAILABLE : bool) (self : DataSource)
  (tp : string) (a : answer) (now : pyfloat) (room : bool)
  (msg : message pydict) :
  poll_pair HB_AVAILABLE self tp a now room = Ok msg ->
  room = true
  /\ exists n,
       int_of_float now = Ok n
       /\ message_content msg !! "trading_pair" = Some (VStr tp)
       /\ message_content msg !! "update_id" = Some (VInt n)
       /\ ((message_content msg !! "bids" = Some (VList [])
            /\ message_content msg !! "asks" = Some (VList []))
           \/ exists bid bid2 ask ask2,
                message_content msg !! "bids"
                = Some (VList [level bid f1_0; level bid2 f2_0])
                /\ message_content msg !! "asks"
                   = Some (VList [level ask f1_0; level ask2 f2_0])).
Proof.
  unfold poll_pair, request_order_book_snapshot.
  destruct (get_indicative_price self (fun _ => a) tp) as [mid|?];
    cbn [mbind result_bind bind]; [|discriminate].
  destruct (build_synthetic_book tp mid) as [book|?] eqn:Hbook;
    cbn [mbind result_bind bind]; [|discriminate].
  unfold snapshot_message_from_exchange.
  assert (Hmerge : merged_msg book (Some {[ "trading_pair" := VStr tp ]})
                   = dict_merge book {[ "trading_pair" := VStr tp ]}).
  { unfold merged_msg, metadata_given.
    rewrite bool_decide_eq_false_2; [reflexivity|].
    intros H. apply (f_equal (fun m : pydict => m !! "trading_pair")) in H.
    rewrite lookup_singleton_eq, lookup_empty in H. discriminate. }
  rewrite Hmerge, book_content_merged.
  destruct (int_of_float now) as [n|?]; cbn [mbind result_bind bind];
    [|discriminate].
  unfold put_nowait. destruct room; [|discriminate].
  intros [= <-]. split; [reflexivity|]. exists n.
  split; [reflexivity|].
  assert (Hc : message_content
                 (wrap_message HB_AVAILABLE SNAPSHOT
                    (merged_content book {[ "trading_pair" := VStr tp ]} n)
                    now)
               = merged_content book {[ "trading_pair" := VStr tp ]} n)
    by (now destruct HB_AVAILABLE).
  cbn [mret result_ret]. rewrite Hc.
  destruct (build_synthetic_book_shape _ _ _ Hbook)
    as [->|(bid & bid2 & ask & ask2 & ->)].
  - split; [reflexivity|]. split; [reflexivity|]. left. split; reflexivity.
  - split; [reflexivity|]. split; [reflexivity|]. right.
    exists bid, bid2, ask, ask2. split; reflexivity.
Qed.

Lemma emitted_message_content_witness :
  message_content (turn_message sample_turn) !! "trading_pair"
  = Some (VStr "BNB-USDT")
  /\ message_content (turn_message sample_turn) !! "update_id"
     = Some (VInt 1024).
Proof.
  destruct (emitted_message_content false sample_source "BNB-USDT"
              priced_answer (Ffin (2 ^ 52) (-42)) true
              (turn_message sample_turn))
    as (_ & n & Hn & Htp & Hid & _).
  - vm_compute. reflexivity.
  - injection Hn as <-. split; [exact Htp|exact Hid].
Defined.






(** ** A pair that cannot be polled *)

(** The pair a queued message names. *)
Definition names_pair (msg : message pydict) (tp : string) : Prop :=
  message_content msg !! "trading_pair" = Some (VStr tp).

Lemma poll_pair_names_pair HB self tp a now room msg :
  poll_pair HB self tp a now room = Ok msg -> names_pair msg tp.
Proof.
  unfold poll_pair, snapshot_message_from_exchange, names_pair.
  destruct (request_order_book_snapshot self (fun _ => a) tp) as [book|?];
    cbn [mbind result_bind bind]; [|discriminate].
  assert (Hmerge : merged_msg book (Some {[ "trading_pair" := VStr tp ]})
                   = dict_merge book {[ "trading_pair" := VStr tp ]}).
  { unfold merged_msg, metadata_given.
    rewrite bool_decide_eq_false_2; [reflexivity|].
    intros H. apply (f_equal (fun m : pydict => m !! "trading_pair")) in H.
    rewrite lookup_singleton_eq, lookup_empty in H. discriminate. }
  rewrite Hmerge, book_content_merged.
  destruct (int_of_float now) as [n|?]; cbn [mbind result_bind bind];
    [|discriminate].
  unfold put_nowait. destruct room; [|discriminate].
  intros [= <-]. now destruct HB.
Qed.

Lemma poll_pair_malformed HB self tp a now room e :
  split_pair tp = Raise e -> poll_pair HB self tp a now room = Raise e.
Proof.
  intros H. unfold poll_pair, request_order_book_snapshot,
    get_indicative_price.
  now rewrite H.
Qed.

(** The loop stands in the cycle before or at the pair [bad], and has
    emitted only for the pairs before it. *)
Definition before_bad (before : list string) (bad : string)
  (after : list string) (s : poller) : Prop :=
  Forall (fun msg => exists tp, tp ∈ before /\ names_pair msg tp)
    (poller_output s)
  /\ match poller_phase s with
     | Polling tp rest =>
         exists done todo,
           before = (done ++ todo)%list
           /\ tp :: rest = (todo ++ bad :: after)%list
     | _ => True
     end.

Lemma polling_before_bad (done todo : list string) bad after :
  match polling (todo ++ bad :: after)%list with
  | Polling tp rest =>
      exists done' todo',
        (done ++ todo)%list = (done' ++ todo')%list
        /\ tp :: rest = (todo' ++ bad :: after)%list
  | _ => True
  end.
Proof.
  destruct todo as [|t todo]; cbn.
  - now exists done, [].
  - now exists done, (t :: todo).
Qed.

Lemma step_before_bad HB self before bad after e s ev s' :
  ds_trading_pairs self = (before ++ bad :: after)%list ->
  split_pair bad = Raise e ->
  before_bad before bad after s ->
  step HB self s ev = Some s' ->
  before_bad before bad after s'.
Proof.
  intros Hpairs Hbad [Hout Hph] Hstep. unfold step in Hstep.
  destruct (poller_phase s) as [tp rest| |e0], ev as [a now room| |];
    try discriminate.
  - destruct Hph as (done & todo & Hb & Ht).
    destruct (poll_pair HB self tp a now room) as [msg|e1] eqn:Hpoll.
    + injection Hstep as <-. destruct todo as [|t todo].
      * cbn in Ht. injection Ht as -> ->.
        rewrite (poll_pair_malformed _ _ _ _ _ _ _ Hbad) in Hpoll.
        discriminate.
      * cbn in Ht. injection Ht as <- ->. split; cbn.
        -- apply Forall_app. split; [exact Hout|].
           constructor; [|constructor]. exists tp. split.
           ++ subst before. apply elem_of_app. right. left.
           ++ exact (poll_pair_names_pair _ _ _ _ _ _ _ Hpoll).
        -- subst before.
           replace (done ++ tp :: todo)%list
             with ((done ++ [tp]) ++ todo)%list
             by (now rewrite <- app_assoc).
           apply polling_before_bad.
    + destruct (is_Exception e1); injection Hstep as <-;
        (split; [exact Hout|exact I]).
  - injection Hstep as <-. split; [exact Hout|exact I].
  - injection Hstep as <-. split; [exact Hout|]. cbn. rewrite Hpairs.
    apply (polling_before_bad [] before).
  - injection Hstep as <-. split; [exact Hout|exact I].
Qed.

Lemma steps_before_bad HB self before bad after e s evs s' :
  ds_trading_pairs self = (before ++ bad :: after)%list ->
  split_pair bad = Raise e ->
  steps HB self s evs s' ->
  before_bad before bad after s -> before_bad before bad after s'.
Proof.
  intros Hpairs Hbad.
  induction 1 as [s|s ev s1 evs s2 Hstep _ IH]; intros H0; [exact H0|].
  apply IH.
  exact (step_before_bad _ _ _ _ _ _ _ _ _ Hpairs Hbad H0 Hstep).
Qed.

(** X18. A configured pair whose string does not split into two tokens
    fails in every cycle, and the [for] loop never gets past it: in every
    run of the loop, every message emitted is for a pair that stands
    before it in the list; the pairs after it are never polled. *)
Theorem malformed_pair_starves_later_pairs (HB_AVAILABLE : bool)
  (self : DataSource) (before : list string) (bad : string)
  (after : list string) (e : exn) (evs : list event) (s : poller) :
  ds_trading_pairs self = (before ++ bad :: after)%list ->
  split_pair bad = Raise e ->
  steps HB_AVAILABLE self (initial self) evs s ->
  Forall (fun msg => exists tp, tp ∈ before /\ names_pair msg tp)
    (poller_output s)
  /\ forall tp rest, poller_phase s = Polling tp rest ->
                     tp ∈ before \/ tp = bad.
Proof.
  intros Hpairs Hbad Hrun.
  assert (Hinv : before_bad before bad after s).
  { apply (steps_before_bad _ _ _ _ _ _ _ _ _ Hpairs Hbad Hrun).
    split; [constructor|]. cbn. rewrite Hpairs.
    apply (polling_before_bad [] before). }
  destruct Hinv as [Hout Hph]. split; [exact Hout|].
  intros tp rest Hp. rewrite Hp in Hph.
  destruct Hph as (done & todo & Hb & Ht).
  destruct todo as [|t todo]; cbn in Ht; injection Ht as <- _.
  - now right.
  - left. subst before. apply elem_of_app. right. left.
Qed.

Definition starved_source : DataSource :=
  {| ds_trading_pairs := ["BNB-USDT"; "ETHUSDT"; "BTC-USDT"];
     ds_api_key := "key"; ds_chain_id := 56 |}.

(** The run of the loop over a list of events, as a function. *)
Fixpoint run (HB : bool) (self : DataSource) (s : poller)
  (evs : list event) : option poller :=
  match evs with
  | [] => Some s
  | ev :: evs' =>
      match step HB self s ev with
      | Some s' => run HB self s' evs'
      | None => None
      end
  end.

Lemma run_steps HB self s evs s' :
  run HB self s evs = Some s' -> steps HB self s evs s'.
Proof.
  revert s. induction evs as [|ev evs IH]; intros s; cbn.
  - intros [= <-]. apply steps_nil.
  - destruct (step HB self s ev) as [s1|] eqn:Hstep; [|discriminate].
    intros H. eapply steps_cons; [exact Hstep|apply IH, H].
Qed.

Definition starved_events : list event :=
  [Answered priced_answer (Ffin (2 ^ 52) (-42)) true;
   Answered priced_answer (Ffin (2 ^ 52) (-42)) true;
   Woken;
   Answered priced_answer (Ffin (2 ^ 52) (-42)) true].

Definition starved_state : poller :=
  default (initial starved_source)
    (run false starved_source (initial starved_source) starved_events).

Lemma malformed_pair_starves_later_pairs_witness :
  Forall (fun msg => exists tp, tp ∈ ["BNB-USDT"] /\ names_pair msg tp)
    (poller_output starved_state)
  /\ length (poller_output starved_state) = 2%nat.
Proof.
  assert (Hrun : steps false starved_source (initial starved_source)
                   starved_events starved_state).
  { apply run_steps. vm_compute. reflexivity. }
  destruct (malformed_pair_starves_later_pairs false starved_source
              ["BNB-USDT"] "ETHUSDT" ["BTC-USDT"]
              (ValueError "not enough values to unpack (expected 2, got 1)")
              starved_events starved_state eq_refl eq_refl Hrun) as [H _].
  split; [exact H|]. vm_compute. reflexivity.
Defined.

(** ** [deluthium_auth.py] *)

(** [DeluthiumAuth.rest_authenticate]: the headers of the request after
    the call.  [request.headers or {}] keeps a dictionary that is not
    empty and takes a new one for [None] or an empty one. *)
Definition rest_authenticate (api_key : string) (headers : option pydict)
  : pydict :=
  let headers :=
    match headers with
    | Some h => if bool_decide (h = ∅) then ∅ else h
    | None => ∅
    end in
  <["Content-Type" := VStr "application/json"]>
    (<["Authorization" := VStr ("Bearer " +:+ api_key)]> headers).

(** X19. [rest_authenticate] sets the bearer token and the JSON content
    type, keeps every other header of the request, gives the same headers
    when applied again, and on a request without headers gives exactly the
    headers the exchange and the data source attach by hand. *)
Theorem rest_authenticate_headers (api_key : string)
  (headers : option pydict) :
  let h' := rest_authenticate api_key headers in
  h' !! "Authorization" = Some (VStr ("Bearer " +:+ api_key))
  /\ h' !! "Content-Type" = Some (VStr "application/json")
  /\ (forall k, k <> "Authorization" -> k <> "Content-Type" ->
                h' !! k = default ∅ headers !! k)
  /\ rest_authenticate api_key (Some h') = h'
  /\ rest_authenticate api_key None = auth_headers api_key.
Proof.
  cbv zeta. unfold rest_authenticate.
  set (h := match headers with
            | Some h => if bool_decide (h = ∅) then ∅ else h
            | None => ∅
            end).
  assert (Hh : forall k, h !! k = default ∅ headers !! k).
  { intros k. subst h. destruct headers as [h0|]; [|reflexivity].
    cbn. destruct (bool_decide_reflect (h0 = ∅)) as [->|]; reflexivity. }
  repeat apply conj.
  - rewrite lookup_insert_ne by discriminate. apply lookup_insert_eq.
  - apply lookup_insert_eq.
  - intros k H1 H2. rewrite !lookup_insert_ne by congruence. apply Hh.
  - rewrite bool_decide_eq_false_2.
    + apply map_eq. intros k.
      destruct (decide (k = "Content-Type")) as [->|H2].
      { rewrite lookup_insert_eq. symmetry. apply lookup_insert_eq. }
      rewrite (lookup_insert_ne _ "Content-Type" k) by congruence.
      destruct (decide (k = "Authorization")) as [->|H1].
      { rewrite lookup_insert_eq, lookup_insert_ne by discriminate.
        symmetry. apply lookup_insert_eq. }
      rewrite (lookup_insert_ne _ "Authorization" k) by congruence.
      reflexivity.
    + intros H. apply (f_equal (fun m : pydict => m !! "Content-Type")) in H.
      rewrite lookup_insert_eq, lookup_empty in H. discriminate.
  - unfold auth_headers. apply map_eq. intros k.
    destruct (decide (k = "Content-Type")) as [->|H2].
    + rewrite lookup_insert_eq, lookup_insert_ne by discriminate.
      symmetry. apply lookup_singleton_eq.
    + rewrite (lookup_insert_ne _ "Content-Type" k) by congruence.
      destruct (decide (k = "Authorization")) as [->|H1].
      * rewrite lookup_insert_eq. symmetry. apply lookup_insert_eq.
      * rewrite !lookup_insert_ne by congruence.
        rewrite lookup_singleton_ne by congruence. apply lookup_empty.
Qed.

Lemma rest_authenticate_headers_witness :
  rest_authenticate "key" (Some {[ "Accept" := VStr "*/*" ]}) !! "Accept"
  = Some (VStr "*/*").
Proof.
  destruct (rest_authenticate_headers "key"
              (Some {[ "Accept" := VStr "*/*" ]})) as (_ & _ & H & _).
  apply (H "Accept"); discriminate.
Defined.

(** ** More of [deluthium_utils.py] *)

(** [s.lower()], on ASCII letters. *)
Fixpoint str_lower (s : string) : string :=
  match s with
  | EmptyString => EmptyString
  | String c rest => String (lower c) (str_lower rest)
  end.

(** [is_native_token]. *)
Definition is_native_token (address : string) : bool :=
  bool_decide (str_lower address = str_lower NATIVE_TOKEN_ADDRESS).

Lemma lower_zero c : lower c = "0"%char -> c = "0"%char.
Proof.
  destruct c as [[] [] [] [] [] [] [] []]; vm_compute; congruence.
Qed.

Lemma lower_x c : lower c = "x"%char -> c = "x"%char \/ c = "X"%char.
Proof.
  destruct c as [[] [] [] [] [] [] [] []]; vm_compute; intros H;
    first [discriminate|now left|now right].
Qed.

Lemma str_lower_zeros n s :
  str_lower s = str_repeat "0" n -> s = str_repeat "0" n.
Proof.
  revert s. induction n as [|n IH]; intros [|c s]; cbn; try discriminate.
  - reflexivity.
  - intros [= Hc Hs]. now rewrite (lower_zero _ Hc), (IH _ Hs).
Qed.

(** X20. [is_native_token] accepts the zero address with either case of
    its ["x"], and nothing else. *)
Theorem is_native_token_iff (address : string) :
  is_native_token address = true
  <-> address = "0x0000000000000000000000000000000000000000"
      \/ address = "0X0000000000000000000000000000000000000000".
Proof.
  unfold is_native_token. rewrite bool_decide_eq_true. split.
  - change (str_lower NATIVE_TOKEN_ADDRESS)
      with (String "0" (String "x" (str_repeat "0" 40))).
    destruct address as [|c0 [|c1 rest]]; cbn; try discriminate.
    intros [= H0 H1 Hr].
    change (str_lower rest = str_repeat "0" 40) in Hr.
    rewrite (lower_zero _ H0), (str_lower_zeros _ _ Hr).
    destruct (lower_x _ H1) as [->| ->]; [now left|now right].
  - intros [->| ->]; reflexivity.
Qed.

Lemma is_native_token_iff_witness :
  is_native_token "0X0000000000000000000000000000000000000000" = true.
Proof.
  apply (proj2 (is_native_token_iff
                  "0X0000000000000000000000000000000000000000")).
  now right.
Defined.

(** ** Messages without metadata *)

(** X21. Without metadata, or with an empty metadata dictionary, a
    snapshot message is built from the message dictionary alone, each
    missing field taking its default; called by reference, the call then
    makes no copy of the message: the store gains the content dictionary
    and nothing else. *)
Theorem snapshot_message_without_metadata (HB_AVAILABLE : bool)
  (msg : pydict) (timestamp : pyfloat) (n : Z) (h : store) (l : loc) :
  int_of_float timestamp = Ok n ->
  h !! l = Some msg ->
  let content : pydict :=
    {[ "trading_pair" := dict_get_default "trading_pair" (VStr "") msg;
       "update_id" := dict_get_default "update_id" (VInt n) msg;
       "bids" := dict_get_default "bids" (VList []) msg;
       "asks" := dict_get_default "asks" (VList []) msg ]} in
  snapshot_message_from_exchange HB_AVAILABLE msg timestamp None
  = Ok (wrap_message HB_AVAILABLE SNAPSHOT content timestamp)
  /\ snapshot_message_from_exchange HB_AVAILABLE msg timestamp (Some ∅)
     = Ok (wrap_message HB_AVAILABLE SNAPSHOT content timestamp)
  /\ snapshot_message_from_exchange_ref HB_AVAILABLE h l timestamp None
     = (<[fresh (dom h) := content]> h,
        Ok (wrap_message HB_AVAILABLE SNAPSHOT (fresh (dom h)) timestamp)).
Proof.
  intros Hn Hl. cbv zeta.
  unfold snapshot_message_from_exchange, snapshot_message_from_exchange_ref.
  cbn [merged_msg metadata_given fmap option_fmap option_map].
  rewrite bool_decide_eq_true_2 by reflexivity. cbn [negb].
  rewrite (deref_lookup _ _ _ Hl).
  unfold book_content. rewrite Hn. repeat apply conj; reflexivity.
Qed.

Lemma snapshot_message_without_metadata_witness :
  snapshot_message_from_exchange false {[ "bids" := VList [VInt 1] ]}
    (Ffin (2 ^ 52) (-42)) None
  = Ok (PlainContent
          {[ "trading_pair" := VStr ""; "update_id" := VInt 1024;
             "bids" := VList [VInt 1]; "asks" := VList [] ]}).
Proof.
  destruct (snapshot_message_without_metadata false
              {[ "bids" := VList [VInt 1] ]} (Ffin (2 ^ 52) (-42)) 1024
              {[ 1%positive := {[ "bids" := VList [VInt 1] ]} ]} 1%positive
              eq_refl (lookup_singleton_eq _ _)) as [H _].
  rewrite H. vm_compute. reflexivity.
Defined.

(** ** Instances *)

Lemma symbol_codec_lossy_on_mixed_separators_witness :
  convert_symbol_to_deluthium (convert_symbol_to_hummingbot "WBTC-B/USDT")
  <> "WBTC-B/USDT".
Proof.
  destruct symbol_codec_lossy_on_mixed_separators as [_ H].
  apply H. reflexivity.
Defined.

Lemma wrapped_token_iff_valid_chain_witness :
  exists addr, get_wrapped_token 8453 = Ok addr.
Proof.
  destruct (wrapped_token_iff_valid_chain 8453) as [[H _] _].
  apply H. reflexivity.
Defined.

Lemma handle_response_errors_returns_iff_witness :
  handle_response_errors (VDict body_unlisted) = Ok ()
  /\ handle_response_errors (VDict body_separator) <> Ok ().
Proof.
  split.
  - apply (proj2 (handle_response_errors_returns_iff body_unlisted)). split.
    + right. reflexivity.
    + right. exists 4242. split; vm_compute; reflexivity.
  - intros H.
    destruct (proj1 (handle_response_errors_returns_iff body_separator) H)
      as [_ [Hf|(n & Hn & _)]].
    + vm_compute in Hf. discriminate.
    + vm_compute in Hn. discriminate.
Defined.

Lemma fetch_trading_pairs_soft_fail_witness :
  fetch_trading_pairs sample_source (fun _ => Responded 503 (Ok VNone))
  = Ok [].
Proof.
  destruct (fetch_trading_pairs_soft_fail sample_source
              (fun _ => Responded 503 (Ok VNone))) as (_ & _ & H & _).
  apply (H 503 (Ok VNone)); [reflexivity|lia].
Defined.

Lemma populate_pair_cache_soft_fail_witness :
  (populate_pair_cache sample_exchange
     (fun _ => Failed (ClientError "connection refused"))).1
  = sample_exchange.
Proof.
  destruct (populate_pair_cache_soft_fail sample_exchange
              (fun _ => Failed (ClientError "connection refused")))
    as (_ & _ & _ & H).
  apply (H (ClientError "connection refused")). reflexivity.
Defined.

